(** * useUserData: the user-session hook of the calorie tracker

    A shallow embedding of [src/useUserData.js]: the JavaScript values the
    hook reads and writes, the operators it applies to them, the hook's three
    state cells, the four queries it sends to the data service, its
    operations, and the four derived entitlement values.

    Conventions of the embedding.
    - A JavaScript object is a finite map from property names to values; the
      spread [{...a, ...b}] is the union that prefers [b].
    - A JavaScript number is an integer or NaN.  The counters of the hook
      ([credits], [track_calories_usage]) are integers far below 2^53, where
      double arithmetic is exact; NaN is kept because arithmetic on a missing
      field produces it.  Other doubles are outside the model.
    - Strings are sequences of one-byte characters.
    - The hook's operations are asynchronous functions that suspend only on
      the data service.  They are embedded as sequential computations over
      the state cells, one operation running at a time: the [user] a
      callback closes over is the [user] of the state it starts from.
    - The data service is a function from requests to answers.  A request
      resolves with a [{ data, error }] pair; the client reports a failure
      in [error] and does not reject the promise.
    - The order of an object's properties is not kept. *)

From Stdlib Require Import ZArith String Ascii List Bool.
From stdpp Require Import base option list gmap strings pretty fin_maps.

Local Open Scope string_scope.
Local Open Scope list_scope.
Local Open Scope Z_scope.

(** ** JavaScript values *)

Module JS.

Inductive num : Type :=
| Int (z : Z)
| NaN.

#[warnings="-register-all"]
Inductive value : Type :=
| VUndef
| VNull
| VBool (b : bool)
| VNum (n : num)
| VStr (s : string)
| VArr (l : list value)
| VObj (o : gmap string value).

Abbreviation obj := (gmap string value).

Definition VInt (z : Z) : value := VNum (Int z).

(** ToBoolean *)
Definition truthy (v : value) : bool :=
  match v with
  | VUndef | VNull => false
  | VBool b => b
  | VNum (Int z) => negb (z =? 0)
  | VNum NaN => false
  | VStr s => negb (String.eqb s "")
  | VArr _ | VObj _ => true
  end.

(** [!v], [a || b], [a && b] *)
Definition Not (v : value) : value := VBool (negb (truthy v)).
Definition Or (a b : value) : value := if truthy a then a else b.
Definition And (a b : value) : value := if truthy a then b else a.

(** ToString of a number *)
Definition NumberToString (n : num) : string :=
  match n with
  | Int z => pretty z
  | NaN => "NaN"
  end.

(** Array.prototype.join(","), the conversion of an array to a primitive;
    a plain object converts to the fixed string of Object.prototype.toString. *)
Fixpoint ToString (v : value) : string :=
  match v with
  | VUndef => "undefined"
  | VNull => "null"
  | VBool true => "true"
  | VBool false => "false"
  | VNum n => NumberToString n
  | VStr s => s
  | VArr l =>
      let elt (x : value) : string :=
        match x with
        | VUndef | VNull => ""
        | _ => ToString x
        end in
      String.concat "," (List.map elt l)
  | VObj _ => "[object Object]"
  end.

(** ToPrimitive: arrays and plain objects become strings. *)
Definition ToPrimitive (v : value) : value :=
  match v with
  | VArr _ | VObj _ => VStr (ToString v)
  | _ => v
  end.

(** StringToNumber on integer numerals: surrounding white space is dropped,
    the empty string is 0, an optionally signed run of decimal digits is its
    value.  Every other string reads as NaN: numerals with a fraction, an
    exponent or a radix prefix denote doubles that this model does not
    carry. *)
Definition is_digit (c : ascii) : bool :=
  let n := nat_of_ascii c in ((48 <=? n) && (n <=? 57))%nat.

Definition is_white (c : ascii) : bool :=
  let n := nat_of_ascii c in (((9 <=? n) && (n <=? 13)) || (n =? 32))%nat.

Fixpoint skip_white (s : string) : string :=
  match s with
  | String c s' => if is_white c then skip_white s' else s
  | EmptyString => EmptyString
  end.

Definition trim (s : string) : string :=
  String.rev (skip_white (String.rev (skip_white s))).

Fixpoint digits (s : string) (acc : Z) : option Z :=
  match s with
  | EmptyString => Some acc
  | String c s' =>
      if is_digit c
      then digits s' (10 * acc + Z.of_nat (nat_of_ascii c - 48))
      else None
  end.

Definition unsigned (s : string) : option Z :=
  match s with
  | EmptyString => None
  | _ => digits s 0
  end.

Definition StringToNumber (s : string) : num :=
  match trim s with
  | EmptyString => Int 0
  | String "+" r => from_option Int NaN (unsigned r)
  | String "-" r => from_option (fun z => Int (- z)) NaN (unsigned r)
  | t => from_option Int NaN (unsigned t)
  end.

(** ToNumber *)
Definition ToNumber (v : value) : num :=
  match ToPrimitive v with
  | VUndef => NaN
  | VNull => Int 0
  | VBool b => Int (if b then 1 else 0)
  | VNum n => n
  | VStr s => StringToNumber s
  | VArr _ | VObj _ => NaN
  end.

Definition num_add (a b : num) : num :=
  match a, b with
  | Int x, Int y => Int (x + y)
  | _, _ => NaN
  end.

Definition num_sub (a b : num) : num :=
  match a, b with
  | Int x, Int y => Int (x - y)
  | _, _ => NaN
  end.

(** [a + b]: concatenation as soon as one operand is a string after
    ToPrimitive, addition of numbers otherwise. *)
Definition add (a b : value) : value :=
  match ToPrimitive a, ToPrimitive b with
  | VStr s, pb => VStr (String.append s (ToString pb))
  | pa, VStr s => VStr (String.append (ToString pa) s)
  | pa, pb => VNum (num_add (ToNumber pa) (ToNumber pb))
  end.

(** [a - b] *)
Definition sub (a b : value) : value :=
  VNum (num_sub (ToNumber a) (ToNumber b)).

(** The abstract relational comparison [a < b]: [None] is its "undefined"
    answer, given when an operand is NaN. *)
Definition less (a b : value) : option bool :=
  match ToPrimitive a, ToPrimitive b with
  | VStr s, VStr t => Some (String.ltb s t)
  | pa, pb =>
      match ToNumber pa, ToNumber pb with
      | Int x, Int y => Some (x <? y)
      | _, _ => None
      end
  end.

(** [a < b], [a > b], [a <= b] *)
Definition lt (a b : value) : bool := from_option id false (less a b).
Definition gt (a b : value) : bool := from_option id false (less b a).
Definition le (a b : value) : bool := from_option negb false (less b a).

(** [v === n] and [v !== s] against a number and a string literal: strict
    equality holds only for a value of the literal's type. *)
Definition strict_eq_num (v : value) (n : Z) : bool :=
  match v with
  | VNum (Int z) => z =? n
  | _ => false
  end.

Definition strict_ne_str (v : value) (s : string) : bool :=
  match v with
  | VStr t => negb (String.eqb t s)
  | _ => true
  end.

(** [Math.max(a, b)] *)
Definition Math_max (a b : value) : value :=
  match ToNumber a, ToNumber b with
  | Int x, Int y => VInt (Z.max x y)
  | _, _ => VNum NaN
  end.

(** [o.k] on an object: a missing property reads as undefined. *)
Definition prop (o : obj) (k : string) : value := default VUndef (o !! k).

(** [v.k] on a truthy value, for the property names the hook reads
    ([code], [message]): none of them is an index, [length] or a prototype
    property, so only an object can carry them. *)
Definition get (v : value) (k : string) : value :=
  match v with
  | VObj o => prop o k
  | _ => VUndef
  end.

(** The own enumerable properties of an array or of a string: its elements
    under their decimal indices. *)
Definition index_props (l : list value) : obj :=
  list_to_map (imap (fun i x => (pretty (N.of_nat i), x)) l).

Definition chars (s : string) : list value :=
  List.map (fun c => VStr (String c EmptyString)) (list_ascii_of_string s).

(** Object spread [{...v}]: null, undefined, booleans and numbers contribute
    nothing. *)
Definition spread (v : value) : obj :=
  match v with
  | VObj o => o
  | VArr l => index_props l
  | VStr s => index_props (chars s)
  | _ => ∅
  end.

(** Array spread [[...v]]: [None] is the TypeError raised for a value that
    is not iterable. *)
Definition iterate (v : value) : option (list value) :=
  match v with
  | VArr l => Some l
  | VStr s => Some (chars s)
  | _ => None
  end.

(** [v === s] against a string literal. *)
Definition strict_eq_str (v : value) (s : string) : bool :=
  match v with
  | VStr t => String.eqb t s
  | _ => false
  end.

(** Optional chaining [v?.k], for the property names the hook reads through
    it ([user]): undefined on null and undefined, [v.k] otherwise. *)
Definition optional (v : value) (k : string) : value :=
  match v with
  | VUndef | VNull => VUndef
  | _ => get v k
  end.

End JS.

(** ** The hook: state cells, data service, effects *)

Module Hook.
Import JS.

Definition MAX_FREE_SCANS : Z := 10.

(** The three [useState] cells.  [user] is null or an object. *)
Record state : Type := State {
  user : option obj;
  loading : bool;
  error : value
}.

Definition initial : state :=
  {| user := None; loading := true; error := VNull |}.

(** The four requests the hook sends through the supabase client. *)
Inductive query : Type :=
| SelectProfile (userId : value)
    (* from('profiles').select('*').eq('id', userId).single() *)
| SelectMealLogs (userId : value)
    (* from('meal_logs').select('*').eq('user_id', userId)
       .order('scanned_at', { ascending: false }) *)
| UpdateProfile (fields : obj) (userId : value)
    (* from('profiles').update(fields).eq('id', userId).select().single() *)
| InsertMeal (row : obj).
    (* from('meal_logs').insert(row).select().single() *)

(** The [{ data, error }] pair a request resolves with; [failure] is its
    [error], named apart from the [error] cell of the state. *)
Record response : Type := Response {
  data : value;
  failure : value
}.

(** What an operation does, in order: writes to the state cells, requests
    to the service, lines on the console. *)
Inductive event : Type :=
| SetUser (u : option obj)
| SetLoading (b : bool)
| SetError (e : value)
| Request (q : query)
| ConsoleError (msg : string) (e : value).

(** How a computation ends: with a value, with a thrown value, or with the
    component failing to render.  React runs a state updater
    [setUser(prev => ...)] while rendering, so an updater that throws is not
    caught by the [try] block around the [setUser] call. *)
Inductive outcome (A : Type) : Type :=
| Return (a : A)
| Throw (e : value)
| RenderError.
Arguments Return {A} a.
Arguments Throw {A} e.
Arguments RenderError {A}.

Definition M (A : Type) : Type := state -> outcome A * state * list event.

Definition ret {A} (a : A) : M A := fun s => (Return a, s, []).

Definition bind {A B} (m : M A) (k : A -> M B) : M B :=
  fun s =>
    match m s with
    | (Return a, s1, t1) => let '(r, s2, t2) := k a s1 in (r, s2, t1 ++ t2)
    | (Throw e, s1, t1) => (Throw e, s1, t1)
    | (RenderError, s1, t1) => (RenderError, s1, t1)
    end.

Definition throw {A} (e : value) : M A := fun s => (Throw e, s, []).

(** [try { m } catch (err) { h err }] *)
Definition try_catch {A} (m : M A) (h : value -> M A) : M A :=
  fun s =>
    match m s with
    | (Throw e, s1, t1) => let '(r, s2, t2) := h e s1 in (r, s2, t1 ++ t2)
    | done => done
    end.

(** [try { m } finally { f }]: [f] runs after a return and after a throw,
    and the completion of [m] stands when [f] completes normally. *)
Definition finally {A} (m : M A) (f : M unit) : M A :=
  fun s =>
    match m s with
    | (RenderError, s1, t1) => (RenderError, s1, t1)
    | (r, s1, t1) =>
        match f s1 with
        | (Return _, s2, t2) => (r, s2, t1 ++ t2)
        | (Throw e, s2, t2) => (Throw e, s2, t1 ++ t2)
        | (RenderError, s2, t2) => (RenderError, s2, t1 ++ t2)
        end
    end.

Declare Scope hook_scope.
Delimit Scope hook_scope with hook.
Notation "'let*' x ':=' m 'in' k" := (bind m (fun x => k))
  (at level 10, x name, m at level 100, k at level 200) : hook_scope.
Notation "m ';;' k" := (bind m (fun _ => k))
  (at level 100, right associativity) : hook_scope.
Local Open Scope hook_scope.

Definition getUser : M (option obj) := fun s => (Return (user s), s, []).

Definition setUser (u : option obj) : M unit :=
  fun s => (Return tt, {| user := u; loading := loading s; error := error s |},
            [SetUser u]).

(** [setUser(prevUser => f prevUser)]; [f] answers [None] when it throws. *)
Definition setUserWith (f : option obj -> option (option obj)) : M unit :=
  fun s =>
    match f (user s) with
    | Some u => setUser u s
    | None => (RenderError, s, [])
    end.

Definition setLoading (b : bool) : M unit :=
  fun s => (Return tt, {| user := user s; loading := b; error := error s |},
            [SetLoading b]).

Definition setError (e : value) : M unit :=
  fun s => (Return tt, {| user := user s; loading := loading s; error := e |},
            [SetError e]).

Definition console_error (msg : string) (e : value) : M unit :=
  fun s => (Return tt, s, [ConsoleError msg e]).

(** [if (c) throw e;] *)
Definition throw_if (c : bool) (e : value) : M unit :=
  if c then throw e else ret tt.

(** The value an operation ends with, the state it leaves, and what it did. *)
Definition result {A} (m : M A) (s : state) : outcome A := fst (fst (m s)).
Definition after {A} (m : M A) (s : state) : state := snd (fst (m s)).
Definition trace {A} (m : M A) (s : state) : list event := snd (m s).

(** ** The operations of the hook *)

Section Operations.

(** The data service answers every request; the clock gives the string of
    [new Date().toISOString()]. *)
Variable supabase : query -> response.
Variable now : string.

(** [await supabase.from(...)...] *)
Definition await (q : query) : M response :=
  fun s => (Return (supabase q), s, [Request q]).

Definition fetchUserProfile (userId : value) : M unit :=
  setLoading true ;;
  setError VNull ;;
  finally
    (try_catch
       (let* r := await (SelectProfile userId) in
        let profile := data r in
        let profileError := failure r in
        throw_if (truthy profileError
                  && strict_ne_str (get profileError "code") "PGRST116")
                 profileError ;;
        if truthy profile then
          let* r' := await (SelectMealLogs userId) in
          let mealLog := data r' in
          let mealLogError := failure r' in
          throw_if (truthy mealLogError) mealLogError ;;
          setUser (Some (<["mealLog" := Or mealLog (VArr [])]> (spread profile)))
        else
          setUser None)
       (fun err =>
          console_error "Error fetching user data:" err ;;
          setError (get err "message") ;;
          setUser None))
    (setLoading false).

Definition updateProfile (userId : value) (updates : obj) : M value :=
  try_catch
    (let* r := await (UpdateProfile (<["updated_at" := VStr now]> updates) userId) in
     throw_if (truthy (failure r)) (failure r) ;;
     setUserWith (fun prevUser =>
       Some (Some (spread (data r) ∪ from_option id ∅ prevUser))) ;;
     ret (data r))
    (fun err =>
       console_error "Error updating profile:" err ;;
       setError (get err "message") ;;
       ret VNull).

Definition incrementTrackCaloriesUsage : M value :=
  let* user := getUser in
  match user with
  | None => ret VUndef
  | Some user =>
      if truthy (prop user "is_premium") || gt (prop user "credits") (VInt 0)
      then ret VUndef
      else if lt (prop user "track_calories_usage") (VInt MAX_FREE_SCANS)
      then
        updateProfile (prop user "id")
          {[ "track_calories_usage" :=
               add (prop user "track_calories_usage") (VInt 1) ]} ;;
        ret VUndef
      else ret VUndef
  end.

Definition addCredits (amount : value) : M value :=
  let* user := getUser in
  match user with
  | None => ret VUndef
  | Some user =>
      updateProfile (prop user "id")
        {[ "credits" := add (Or (prop user "credits") (VInt 0)) amount ]} ;;
      ret VUndef
  end.

Definition useCreditForScan : M value :=
  let* user := getUser in
  match user with
  | None => ret (VBool false)
  | Some user =>
      if le (prop user "credits") (VInt 0) then ret (VBool false)
      else
        updateProfile (prop user "id")
          {[ "credits" := sub (prop user "credits") (VInt 1) ]} ;;
        ret (VBool true)
  end.

Definition setPremium (isPremiumStatus : value) : M value :=
  let* user := getUser in
  match user with
  | None => ret VUndef
  | Some user =>
      updateProfile (prop user "id") {[ "is_premium" := isPremiumStatus ]} ;;
      ret VUndef
  end.

(** The record [addMealToLog] inserts: [{ ...mealItem, user_id, scanned_at }]
    after [delete mealToAdd.id]. *)
Definition mealToAdd (user : obj) (mealItem : value) : obj :=
  delete "id"
    (<["scanned_at" := VStr now]>
       (<["user_id" := prop user "id"]> (spread mealItem))).

(** [prevUser => ({ ...prevUser, mealLog: [data, ...(prevUser.mealLog || [])] })];
    reading [mealLog] of a null [prevUser] and spreading a value that is not
    iterable both throw. *)
Definition prependMeal (entry : value) (prevUser : option obj)
  : option (option obj) :=
  match prevUser with
  | None => None
  | Some prevUser =>
      match iterate (Or (prop prevUser "mealLog") (VArr [])) with
      | Some rest => Some (Some (<["mealLog" := VArr (entry :: rest)]> prevUser))
      | None => None
      end
  end.

Definition addMealToLog (mealItem : value) : M value :=
  let* user := getUser in
  match user with
  | None => ret VUndef
  | Some user =>
      try_catch
        (let* r := await (InsertMeal (mealToAdd user mealItem)) in
         throw_if (truthy (failure r)) (failure r) ;;
         setUserWith (prependMeal (data r)) ;;
         ret (data r))
        (fun err =>
           console_error "Error adding meal to log:" err ;;
           setError (get err "message") ;;
           ret VNull)
  end.

End Operations.

(** ** The derived entitlement values *)

Definition remainingFreeScans (user : option obj) : value :=
  match user with
  | Some user =>
      Math_max (VInt 0)
        (sub (VInt MAX_FREE_SCANS) (Or (prop user "track_calories_usage") (VInt 0)))
  | None => VInt 0
  end.

Definition canUseForFree (user : option obj) : value :=
  match user with
  | Some u =>
      And (And (Not (prop u "is_premium"))
               (VBool (strict_eq_num (Or (prop u "credits") (VInt 0)) 0)))
          (VBool (gt (remainingFreeScans user) (VInt 0)))
  | None => VBool false
  end.

Definition canUseWithCredits (user : option obj) : value :=
  match user with
  | Some user =>
      And (Not (prop user "is_premium"))
          (VBool (gt (Or (prop user "credits") (VInt 0)) (VInt 0)))
  | None => VBool false
  end.

Definition canUseAsPremium (user : option obj) : value :=
  match user with
  | Some user => prop user "is_premium"
  | None => VBool false
  end.

(** ** Start-up and session changes *)

Section Session.

Variable supabase : query -> response.

(** A call [fetchUserProfile(userId)] that is not awaited runs the function
    up to its first [await], the two state writes before the [try], and
    leaves the rest of it pending.  [fetchStarted] is that first part,
    handing back the pending rest; [fetchPending] is the rest, the
    [try]/[catch]/[finally] of the function. *)
Definition fetchPending (userId : value) : M unit :=
  finally
    (try_catch
       (let* r := await supabase (SelectProfile userId) in
        let profile := data r in
        let profileError := failure r in
        throw_if (truthy profileError
                  && strict_ne_str (get profileError "code") "PGRST116")
                 profileError ;;
        if truthy profile then
          let* r' := await supabase (SelectMealLogs userId) in
          let mealLog := data r' in
          let mealLogError := failure r' in
          throw_if (truthy mealLogError) mealLogError ;;
          setUser (Some (<["mealLog" := Or mealLog (VArr [])]> (spread profile)))
        else
          setUser None)
       (fun err =>
          console_error "Error fetching user data:" err ;;
          setError (get err "message") ;;
          setUser None))
    (setLoading false).

Definition fetchStarted (userId : value) : M (M unit) :=
  setLoading true ;;
  setError VNull ;;
  ret (fetchPending userId).

(** [initializeUser], given what [getCurrentUser()] resolves with.  It
    starts the fetch without awaiting it, so it returns with the fetch
    pending: its value is the pending rest, if any.  The properties read
    here and in the listener, [id] and [user], are like [code] and
    [message] carried by objects only. *)
Definition initializeUser (currentUser : value) : M (option (M unit)) :=
  if truthy currentUser
  then let* pending := fetchStarted (get currentUser "id") in ret (Some pending)
  else setLoading false ;; ret None.

(** The callback given to [supabase.auth.onAuthStateChange], with the fetch
    it starts on [SIGNED_IN] run to its end. *)
Definition onAuthStateChange (event session : value) : M unit :=
  if strict_eq_str event "SIGNED_IN" && truthy (optional session "user")
  then fetchUserProfile supabase (get (get session "user") "id")
  else if strict_eq_str event "SIGNED_OUT"
  then setUser None
  else ret tt.

End Session.

(** The requests among the events of a run, in order. *)
Definition requests (t : list event) : list query :=
  omap (fun e => match e with Request q => Some q | _ => None end) t.

(** ** Callbacks and renders

    The operations are [useCallback]s with dependency [user]: a callback
    reads the [user] of the render that created it, and a new render makes a
    new callback.  [incrementTrackCaloriesUsage_of captured] and its likes
    are the callbacks of a render whose [user] was [captured]; the state
    they run in is read only by the updater [prevUser => ...] of
    [updateProfile]. *)

Section Callbacks.

Variable supabase : query -> response.
Variable now : string.

Definition incrementTrackCaloriesUsage_of (captured : option obj) : M value :=
  match captured with
  | None => ret VUndef
  | Some user =>
      if truthy (prop user "is_premium") || gt (prop user "credits") (VInt 0)
      then ret VUndef
      else if lt (prop user "track_calories_usage") (VInt MAX_FREE_SCANS)
      then
        updateProfile supabase now (prop user "id")
          {[ "track_calories_usage" :=
               add (prop user "track_calories_usage") (VInt 1) ]} ;;
        ret VUndef
      else ret VUndef
  end.

Definition addCredits_of (captured : option obj) (amount : value) : M value :=
  match captured with
  | None => ret VUndef
  | Some user =>
      updateProfile supabase now (prop user "id")
        {[ "credits" := add (Or (prop user "credits") (VInt 0)) amount ]} ;;
      ret VUndef
  end.

Definition useCreditForScan_of (captured : option obj) : M value :=
  match captured with
  | None => ret (VBool false)
  | Some user =>
      if le (prop user "credits") (VInt 0) then ret (VBool false)
      else
        updateProfile supabase now (prop user "id")
          {[ "credits" := sub (prop user "credits") (VInt 1) ]} ;;
        ret (VBool true)
  end.

End Callbacks.

(** A call through the callback of the latest render: the component has
    rendered the state the call starts from, so the callback has captured
    that state's [user]. *)
Definition fresh {A} (callback : option obj -> M A) : M A :=
  let* user := getUser in callback user.

(** [k] runs of a computation in a row, each from the state the run before
    it left.  Which [user] a run reads is decided by the computation:
    [times k (fresh callback)] is [k] calls with a render between them,
    [times k (callback captured)] is [k] calls of one and the same
    callback. *)
Fixpoint times {A} (k : nat) (m : M A) (s : state) : state :=
  match k with
  | O => s
  | S k' => times k' m (after m s)
  end.

(** ** Vocabulary of the specification *)

(** The request [updateProfile] sends: the partial update merged with a
    fresh [updated_at]. *)
Abbreviation update_request now updates userId :=
  (UpdateProfile (<["updated_at" := VStr now]> updates) userId).

(** The service accepted a write: no error, and the returned row carries the
    fields that were sent. *)
Definition stored (r : response) (fields : obj) : Prop :=
  truthy (failure r) = false /\ fields ⊆ spread (data r).

(** A counter is negative when it is a number below zero. *)
Definition negative (v : value) : bool :=
  match v with
  | VNum (Int z) => z <? 0
  | _ => false
  end.

Definition counter (k : string) : Prop :=
  k = "credits" \/ k = "track_calories_usage".

(** A counter as the data model has it: an integer that is not negative. *)
Definition natural (v : value) : Prop := exists z, v = VInt z /\ 0 <= z.

Definition counters_ok (s : state) : Prop :=
  forall u k, user s = Some u -> counter k -> natural (prop u k).

(** A service that keeps to the data model: the profile row it finds holds
    both counters as non-negative integers, and a counter in its answer to
    an update is a non-negative integer or the value the update asked to
    store. *)
Definition honest (supabase : query -> response) : Prop :=
  (forall userId k, counter k ->
     truthy (data (supabase (SelectProfile userId))) = true ->
     natural (prop (spread (data (supabase (SelectProfile userId)))) k))
  /\ (forall fields userId k v, counter k ->
        spread (data (supabase (UpdateProfile fields userId))) !! k = Some v ->
        natural v \/ fields !! k = Some v).

End Hook.

(** ** Stand-ins for the data service and sample sessions *)

Module Doubles.
Import JS Hook.

(** A service that stores what it is sent: an update answers with the fields
    it received, an insert with the row it received under a fresh [id]. *)
Definition accepting (profile : obj) (meals : list value) (q : query) : response :=
  match q with
  | SelectProfile _ => {| data := VObj profile; failure := VNull |}
  | SelectMealLogs _ => {| data := VArr meals; failure := VNull |}
  | UpdateProfile fields _ => {| data := VObj fields; failure := VNull |}
  | InsertMeal row =>
      {| data := VObj (<["id" := VStr "m-1"]> row); failure := VNull |}
  end.

(** A service that fails every request with the given [code] and message. *)
Definition failing (code msg : string) (q : query) : response :=
  {| data := VNull;
     failure := VObj {[ "code" := VStr code; "message" := VStr msg ]} |}.

(** A service whose profile lookup succeeds and whose meal-log query fails. *)
Definition failing_meals (profile : obj) (msg : string) (q : query) : response :=
  match q with
  | SelectProfile _ => {| data := VObj profile; failure := VNull |}
  | _ => failing "500" msg q
  end.

Definition clock : string := "2024-05-01T12:00:00.000Z".

Definition profile (premium : bool) (credits usage : Z) : obj :=
  {[ "id" := VStr "u1"; "is_premium" := VBool premium;
     "credits" := VInt credits; "track_calories_usage" := VInt usage ]}.

Definition session (u : obj) : state :=
  {| user := Some u; loading := false; error := VNull |}.

End Doubles.

(** * Properties *)

Import JS Hook Doubles.

(** ** Operators *)

Section Operators.

Lemma strict_eq_num_inv (v : value) (n : Z) :
  strict_eq_num v n = true -> v = VInt n.
Proof.
  destruct v as [| | |[z|]| | |]; simpl; try discriminate.
  intros H. apply Z.eqb_eq in H. now subst.
Qed.

Lemma gt_le_false (v w : value) : gt v w = true -> le v w = false.
Proof.
  unfold gt, le. destruct (less w v) as [b|]; simpl; [|discriminate].
  intros ->. reflexivity.
Qed.

Lemma or_int (z : Z) : Or (VInt z) (VInt 0) = VInt z.
Proof.
  unfold Or, VInt; simpl. destruct (Z.eqb_spec z 0); simpl; congruence.
Qed.

Lemma or_falsy (v w : value) : truthy v = false -> Or v w = w.
Proof. unfold Or. now intros ->. Qed.

Lemma not_falsy (v : value) : truthy v = false -> Not v = VBool true.
Proof. unfold Not. now intros ->. Qed.

Lemma not_truthy (v : value) : truthy v = true -> Not v = VBool false.
Proof. unfold Not. now intros ->. Qed.

Lemma prop_lookup (o : obj) (k : string) (v : value) :
  o !! k = Some v -> prop o k = v.
Proof. unfold prop. now intros ->. Qed.

Lemma prop_missing (o : obj) (k : string) : o !! k = None -> prop o k = VUndef.
Proof. unfold prop. now intros ->. Qed.

End Operators.

(** ** Derived entitlement values *)

Section Entitlement.

Lemma remaining_of_int (u : obj) (n : Z) :
  prop u "track_calories_usage" = VInt n ->
  remainingFreeScans (Some u) = VInt (Z.max 0 (MAX_FREE_SCANS - n)).
Proof.
  intros H. unfold remainingFreeScans. rewrite H, or_int. reflexivity.
Qed.

(** C1. At most one of [canUseForFree], [canUseWithCredits] and
    [canUseAsPremium] is truthy (so at most one is [true]), for every user
    state; and when [is_premium] is [true], [canUseAsPremium] is [true] and
    the two others are [false], whatever [credits] and
    [track_calories_usage] hold. *)
Theorem usage_modes_exclusive (user : option obj) :
  (length (List.filter truthy
     [canUseForFree user; canUseWithCredits user; canUseAsPremium user]) <= 1)%nat
  /\ (forall u, user = Some u -> prop u "is_premium" = VBool true ->
        canUseAsPremium user = VBool true
        /\ canUseForFree user = VBool false
        /\ canUseWithCredits user = VBool false).
Proof.
  split.
  - destruct user as [u|]; [|simpl; lia].
    unfold canUseForFree, canUseWithCredits, canUseAsPremium.
    assert (Hex : strict_eq_num (Or (prop u "credits") (VInt 0)) 0 = true ->
                  gt (Or (prop u "credits") (VInt 0)) (VInt 0) = false).
    { intros H. apply strict_eq_num_inv in H. now rewrite H. }
    generalize (gt (remainingFreeScans (Some u)) (VInt 0)). intros g.
    destruct (strict_eq_num (Or (prop u "credits") (VInt 0)) 0);
      destruct (gt (Or (prop u "credits") (VInt 0)) (VInt 0));
      try (specialize (Hex eq_refl); discriminate);
      unfold Not, And;
      destruct (truthy (prop u "is_premium")) eqn:Hp; destruct g;
      cbn; rewrite ?Hp; cbn; lia.
  - intros u -> Hp.
    unfold canUseAsPremium, canUseForFree, canUseWithCredits.
    rewrite Hp. repeat split; reflexivity.
Qed.

Lemma usage_modes_exclusive_witness :
  prop (profile true 3 4) "is_premium" = VBool true
  /\ canUseAsPremium (Some (profile true 3 4)) = VBool true
  /\ canUseForFree (Some (profile true 3 4)) = VBool false
  /\ canUseWithCredits (Some (profile true 3 4)) = VBool false.
Proof.
  split; [reflexivity|].
  apply (proj2 (usage_modes_exclusive (Some (profile true 3 4))) (profile true 3 4));
    reflexivity.
Defined.

(** C9. [remainingFreeScans] is [max(0, MAX_FREE_SCANS - track_calories_usage)]
    for a user whose counter is a number and 0 without a user; with the
    counter at 10 or more, no credits and no premium, [remainingFreeScans] is
    0 and [canUseForFree] is [false]. *)
Theorem remaining_free_scans_formula :
  (forall (u : obj) (n : Z),
     prop u "track_calories_usage" = VInt n ->
     remainingFreeScans (Some u) = VInt (Z.max 0 (MAX_FREE_SCANS - n)))
  /\ remainingFreeScans None = VInt 0
  /\ (forall (u : obj) (n : Z),
        prop u "track_calories_usage" = VInt n -> MAX_FREE_SCANS <= n ->
        prop u "credits" = VInt 0 -> prop u "is_premium" = VBool false ->
        remainingFreeScans (Some u) = VInt 0
        /\ canUseForFree (Some u) = VBool false).
Proof.
  split; [exact remaining_of_int|]. split; [reflexivity|].
  intros u n Hn Hcap Hc Hp.
  assert (Hr : remainingFreeScans (Some u) = VInt 0).
  { rewrite (remaining_of_int u n Hn). f_equal. lia. }
  split; [exact Hr|].
  unfold canUseForFree. rewrite Hr, Hp, Hc. reflexivity.
Qed.

Lemma remaining_free_scans_formula_witness :
  remainingFreeScans (Some (profile false 0 4)) = VInt 6
  /\ remainingFreeScans (Some (profile false 0 12)) = VInt 0
  /\ canUseForFree (Some (profile false 0 12)) = VBool false.
Proof.
  destruct remaining_free_scans_formula as (Hformula & _ & Hcap).
  split; [apply (Hformula (profile false 0 4) 4); reflexivity|].
  apply (Hcap (profile false 0 12) 12); unfold MAX_FREE_SCANS; (reflexivity || lia).
Defined.

End Entitlement.

(** ** Profile updates *)

Section Updates.

Variable supabase : query -> response.
Variable now : string.

Lemma updateProfile_ok (userId : value) (updates : obj) (s : state) :
  let r := supabase (update_request now updates userId) in
  let u' := spread (data r) ∪ from_option id ∅ (user s) in
  truthy (failure r) = false ->
  updateProfile supabase now userId updates s =
    (Return (data r),
     {| user := Some u'; loading := loading s; error := error s |},
     [Request (update_request now updates userId); SetUser (Some u')]).
Proof.
  intros r u' Hok.
  unfold updateProfile, try_catch, bind, await, throw_if, setUserWith.
  fold r. rewrite Hok. reflexivity.
Qed.

Lemma updateProfile_failed (userId : value) (updates : obj) (s : state) :
  let r := supabase (update_request now updates userId) in
  truthy (failure r) = true ->
  updateProfile supabase now userId updates s =
    (Return VNull,
     {| user := user s; loading := loading s; error := get (failure r) "message" |},
     [Request (update_request now updates userId);
      ConsoleError "Error updating profile:" (failure r);
      SetError (get (failure r) "message")]).
Proof.
  intros r Hko.
  unfold updateProfile, try_catch, bind, await, throw_if.
  fold r. rewrite Hko. reflexivity.
Qed.

(** The merge [{ ...prevUser, ...data }] read property by property. *)
Lemma merge_lookup (row prev : obj) (k : string) :
  (row ∪ prev) !! k = match row !! k with Some v => Some v | None => prev !! k end.
Proof.
  rewrite lookup_union. destruct (row !! k), (prev !! k); reflexivity.
Qed.

(** C7. A failed [updateProfile] leaves [user] as it was, sets [error] to
    the failure message and returns null; a successful one returns the
    updated fields and merges them over the current user, so that every
    field the answer does not carry (the [mealLog] in particular) keeps its
    value; it leaves [error] as it was, a prior error included. *)
Theorem updateProfile_frame (userId : value) (updates : obj) (s : state) :
  let r := supabase (update_request now updates userId) in
  let s' := after (updateProfile supabase now userId updates) s in
  let res := result (updateProfile supabase now userId updates) s in
  (truthy (failure r) = true ->
     res = Return VNull
     /\ user s' = user s /\ loading s' = loading s
     /\ error s' = get (failure r) "message")
  /\ (truthy (failure r) = false ->
        res = Return (data r)
        /\ error s' = error s /\ loading s' = loading s
        /\ exists u', user s' = Some u'
           /\ (forall k v, spread (data r) !! k = Some v -> u' !! k = Some v)
           /\ (forall u k, user s = Some u ->
                 spread (data r) !! k = None -> u' !! k = u !! k)
           /\ (forall u, user s = Some u ->
                 spread (data r) !! "mealLog" = None ->
                 prop u' "mealLog" = prop u "mealLog")).
Proof.
  intros r s' res. subst s' res. unfold after, result. split; intros H.
  - rewrite (updateProfile_failed userId updates s H). repeat split.
  - rewrite (updateProfile_ok userId updates s H). cbn [fst snd user loading error].
    repeat split. eexists. split; [reflexivity|]. fold r. repeat split.
    + intros k v Hk. now rewrite merge_lookup, Hk.
    + intros u k -> Hk. now rewrite merge_lookup, Hk.
    + intros u -> Hk. unfold prop. now rewrite merge_lookup, Hk.
Qed.

End Updates.

Lemma updateProfile_frame_witness :
  let s := {| user := Some (<["mealLog" := VArr [VStr "m"]]> (profile false 2 0));
              loading := false; error := VStr "earlier" |} in
  let upd : obj := {[ "credits" := VInt 1 ]} in
  (truthy (failure (failing "500" "down" (update_request clock upd (VStr "u1")))) = true
   /\ after (updateProfile (failing "500" "down") clock (VStr "u1") upd) s =
        {| user := user s; loading := false; error := VStr "down" |})
  /\ (truthy (failure (accepting ∅ [] (update_request clock upd (VStr "u1")))) = false
      /\ error (after (updateProfile (accepting ∅ [] ) clock (VStr "u1") upd) s)
         = VStr "earlier").
Proof.
  intros s upd. split; (split; [reflexivity|]).
  - destruct (proj1 (updateProfile_frame (failing "500" "down") clock (VStr "u1") upd s)
                eq_refl) as (_ & Hu & Hl & He).
    destruct (after _ s) as [u l e]. simpl in *. now rewrite Hu, Hl, He.
  - exact (proj1 (proj2 (proj2 (updateProfile_frame (accepting ∅ []) clock (VStr "u1")
                                  upd s) eq_refl))).
Defined.

(** ** Entitlement operations *)

Section EntitlementOperations.

Variable supabase : query -> response.
Variable now : string.

Lemma increment_unfold (s : state) (u : obj) :
  user s = Some u ->
  incrementTrackCaloriesUsage supabase now s =
    if truthy (prop u "is_premium") || gt (prop u "credits") (VInt 0)
    then (Return VUndef, s, [])
    else if lt (prop u "track_calories_usage") (VInt MAX_FREE_SCANS)
    then bind (updateProfile supabase now (prop u "id")
                 {[ "track_calories_usage" :=
                      add (prop u "track_calories_usage") (VInt 1) ]})
              (fun _ => ret VUndef) s
    else (Return VUndef, s, []).
Proof.
  intros Hu. unfold incrementTrackCaloriesUsage.
  unfold bind at 1. unfold getUser. rewrite Hu.
  destruct (truthy (prop u "is_premium") || gt (prop u "credits") (VInt 0));
    [reflexivity|].
  destruct (lt (prop u "track_calories_usage") (VInt MAX_FREE_SCANS));
    [|reflexivity].
  match goal with |- context [bind ?m ?k s] => destruct (bind m k s) as [[r s2] t2] end.
  reflexivity.
Qed.

Lemma useCredit_unfold (s : state) (u : obj) :
  user s = Some u ->
  useCreditForScan supabase now s =
    if le (prop u "credits") (VInt 0)
    then (Return (VBool false), s, [])
    else bind (updateProfile supabase now (prop u "id")
                 {[ "credits" := sub (prop u "credits") (VInt 1) ]})
              (fun _ => ret (VBool true)) s.
Proof.
  intros Hu. unfold useCreditForScan.
  unfold bind at 1. unfold getUser. rewrite Hu.
  destruct (le (prop u "credits") (VInt 0)); [reflexivity|].
  match goal with |- context [bind ?m ?k s] => destruct (bind m k s) as [[r s2] t2] end.
  reflexivity.
Qed.

(** What an entitlement operation does once it calls [updateProfile]. *)
Lemma update_then_ok {A} (a : A) (userId : value) (updates : obj) (s : state) :
  let r := supabase (update_request now updates userId) in
  let u' := spread (data r) ∪ from_option id ∅ (user s) in
  truthy (failure r) = false ->
  bind (updateProfile supabase now userId updates) (fun _ => ret a) s =
    (Return a,
     {| user := Some u'; loading := loading s; error := error s |},
     [Request (update_request now updates userId); SetUser (Some u')]).
Proof.
  intros r u' H. unfold bind.
  rewrite (updateProfile_ok supabase now userId updates s H). reflexivity.
Qed.

Lemma update_then_failed {A} (a : A) (userId : value) (updates : obj) (s : state) :
  let r := supabase (update_request now updates userId) in
  truthy (failure r) = true ->
  bind (updateProfile supabase now userId updates) (fun _ => ret a) s =
    (Return a,
     {| user := user s; loading := loading s; error := get (failure r) "message" |},
     [Request (update_request now updates userId);
      ConsoleError "Error updating profile:" (failure r);
      SetError (get (failure r) "message")]).
Proof.
  intros r H. unfold bind.
  rewrite (updateProfile_failed supabase now userId updates s H). reflexivity.
Qed.

(** A stored field is read back from the merged user. *)
Lemma stored_field (r : response) (k : string) (v : value) (prev : obj) :
  stored r {[ k := v ]} -> prop (spread (data r) ∪ prev) k = v.
Proof.
  intros [_ Hsub]. apply prop_lookup. rewrite merge_lookup.
  now rewrite (lookup_weaken _ _ k v (lookup_singleton_eq k v) Hsub).
Qed.

(** C3. [incrementTrackCaloriesUsage] does nothing (no request, no state
    write) without a user, for a premium user and for a user with credits;
    otherwise, with the counter at the cap of 10 or above it does nothing,
    and below the cap it requests the counter plus one, which is the user's
    counter once the service has stored it. *)
Theorem incrementTrackCaloriesUsage_spec (s : state) :
  let run := incrementTrackCaloriesUsage supabase now s in
  (user s = None -> run = (Return VUndef, s, []))
  /\ (forall u, user s = Some u ->
        truthy (prop u "is_premium") = true \/ gt (prop u "credits") (VInt 0) = true ->
        run = (Return VUndef, s, []))
  /\ (forall u n, user s = Some u ->
        truthy (prop u "is_premium") = false ->
        gt (prop u "credits") (VInt 0) = false ->
        prop u "track_calories_usage" = VInt n ->
        (MAX_FREE_SCANS <= n -> run = (Return VUndef, s, []))
        /\ (n < MAX_FREE_SCANS ->
            let upd : obj := {[ "track_calories_usage" := VInt (n + 1) ]} in
            let r := supabase (update_request now upd (prop u "id")) in
            let u' := spread (data r) ∪ u in
            head (trace (incrementTrackCaloriesUsage supabase now) s)
              = Some (Request (update_request now upd (prop u "id")))
            /\ (stored r upd ->
                run = (Return VUndef,
                       {| user := Some u'; loading := loading s; error := error s |},
                       [Request (update_request now upd (prop u "id"));
                        SetUser (Some u')])
                /\ prop u' "track_calories_usage" = VInt (n + 1)))).
Proof.
  intros run. subst run. split; [|split].
  - intros Hu. unfold incrementTrackCaloriesUsage, bind, getUser.
    rewrite Hu. reflexivity.
  - intros u Hu Hskip. rewrite (increment_unfold s u Hu).
    destruct Hskip as [-> | ->]; [reflexivity|]. now rewrite orb_true_r.
  - intros u n Hu Hp Hc Hn.
    split; [intros Hcap | intros Hcap upd r u']; unfold trace;
      rewrite (increment_unfold s u Hu), Hp, Hc, Hn; simpl orb; cbv iota.
    + replace (lt (VInt n) (VInt MAX_FREE_SCANS)) with false; [reflexivity|].
      symmetry. cbn. apply Z.ltb_ge. exact Hcap.
    + replace (lt (VInt n) (VInt MAX_FREE_SCANS)) with true
        by (symmetry; cbn; apply Z.ltb_lt; exact Hcap).
      change (add (VInt n) (VInt 1)) with (VInt (n + 1)). fold upd.
      split.
      * destruct (truthy (failure r)) eqn:Hr.
        -- now rewrite (update_then_failed VUndef (prop u "id") upd s Hr).
        -- now rewrite (update_then_ok VUndef (prop u "id") upd s Hr).
      * intros Hst. rewrite (update_then_ok VUndef (prop u "id") upd s (proj1 Hst)).
        rewrite Hu. split; [reflexivity|]. exact (stored_field r _ _ u Hst).
Qed.

(** C4. [useCreditForScan] returns [false] and does nothing without a user
    or when [credits <= 0]; with [credits > 0] it returns [true] and
    requests the credits minus one, which is the user's credits once the
    service has stored it. *)
Theorem useCreditForScan_spec (s : state) :
  let run := useCreditForScan supabase now s in
  (user s = None -> run = (Return (VBool false), s, []))
  /\ (forall u, user s = Some u -> le (prop u "credits") (VInt 0) = true ->
        run = (Return (VBool false), s, []))
  /\ (forall u c, user s = Some u -> prop u "credits" = VInt c -> 0 < c ->
        let upd : obj := {[ "credits" := VInt (c - 1) ]} in
        let r := supabase (update_request now upd (prop u "id")) in
        let u' := spread (data r) ∪ u in
        result (useCreditForScan supabase now) s = Return (VBool true)
        /\ (stored r upd ->
            run = (Return (VBool true),
                   {| user := Some u'; loading := loading s; error := error s |},
                   [Request (update_request now upd (prop u "id"));
                    SetUser (Some u')])
            /\ prop u' "credits" = VInt (c - 1))).
Proof.
  intros run. subst run. split; [|split].
  - intros Hu. unfold useCreditForScan, bind, getUser. rewrite Hu. reflexivity.
  - intros u Hu Hle. now rewrite (useCredit_unfold s u Hu), Hle.
  - intros u c Hu Hc Hpos upd r u'. unfold result.
    rewrite (useCredit_unfold s u Hu), Hc.
    replace (le (VInt c) (VInt 0)) with false
      by (symmetry; cbn; apply negb_false_iff, Z.ltb_lt; exact Hpos).
    change (sub (VInt c) (VInt 1)) with (VInt (c - 1)). fold upd.
    split.
    + destruct (truthy (failure r)) eqn:Hr.
      * now rewrite (update_then_failed (VBool true) (prop u "id") upd s Hr).
      * now rewrite (update_then_ok (VBool true) (prop u "id") upd s Hr).
    + intros Hst.
      rewrite (update_then_ok (VBool true) (prop u "id") upd s (proj1 Hst)).
      rewrite Hu. split; [reflexivity|]. exact (stored_field r _ _ u Hst).
Qed.

(** C5. For a user with [credits > 0], [useCreditForScan] returns [true]
    also when the profile update fails: the user, and so the stored
    credits, is left as it was and [error] is set to the failure message. *)
Theorem useCreditForScan_true_on_failed_update (s : state) (u : obj) :
  user s = Some u ->
  gt (prop u "credits") (VInt 0) = true ->
  let upd : obj := {[ "credits" := sub (prop u "credits") (VInt 1) ]} in
  let r := supabase (update_request now upd (prop u "id")) in
  truthy (failure r) = true ->
  useCreditForScan supabase now s =
    (Return (VBool true),
     {| user := Some u; loading := loading s; error := get (failure r) "message" |},
     [Request (update_request now upd (prop u "id"));
      ConsoleError "Error updating profile:" (failure r);
      SetError (get (failure r) "message")]).
Proof.
  intros Hu Hc upd r Hr.
  rewrite (useCredit_unfold s u Hu), (gt_le_false _ _ Hc). fold upd.
  rewrite (update_then_failed (VBool true) (prop u "id") upd s Hr).
  now rewrite Hu.
Qed.

(** C10. For a user without premium and with zero credits whose
    [track_calories_usage] field is missing, [remainingFreeScans] is 10 and
    [canUseForFree] is [true], the missing counter being read as 0; and
    [incrementTrackCaloriesUsage] does nothing, its comparison of the
    missing counter with the cap being false. *)
Theorem missing_counter_never_incremented (s : state) (u : obj) :
  user s = Some u ->
  u !! "track_calories_usage" = None ->
  truthy (prop u "is_premium") = false ->
  prop u "credits" = VInt 0 ->
  remainingFreeScans (user s) = VInt 10
  /\ canUseForFree (user s) = VBool true
  /\ lt (prop u "track_calories_usage") (VInt MAX_FREE_SCANS) = false
  /\ incrementTrackCaloriesUsage supabase now s = (Return VUndef, s, []).
Proof.
  intros Hu Hn Hp Hc. apply prop_missing in Hn.
  assert (Hr : remainingFreeScans (Some u) = VInt 10).
  { unfold remainingFreeScans. now rewrite Hn. }
  rewrite Hu. split; [exact Hr|]. split; [|split].
  - unfold canUseForFree. rewrite Hr, Hc, (not_falsy _ Hp). reflexivity.
  - now rewrite Hn.
  - rewrite (increment_unfold s u Hu), Hp, Hc, Hn. reflexivity.
Qed.

End EntitlementOperations.

Lemma accepting_stores (profile : obj) (meals : list value) (now : string)
    (updates : obj) (userId : value) :
  updates !! "updated_at" = None ->
  stored (accepting profile meals (update_request now updates userId)) updates.
Proof.
  intros H. split; [reflexivity|]. simpl. now apply insert_subseteq.
Qed.

Lemma incrementTrackCaloriesUsage_spec_witness :
  let svc := accepting ∅ [] in
  let s0 := session (profile false 0 9) in
  let s1 := after (incrementTrackCaloriesUsage svc clock) s0 in
  (exists u1, user s1 = Some u1 /\ prop u1 "track_calories_usage" = VInt 10)
  /\ incrementTrackCaloriesUsage svc clock s1 = (Return VUndef, s1, [])
  /\ incrementTrackCaloriesUsage svc clock (session (profile true 0 3))
     = (Return VUndef, session (profile true 0 3), [])
  /\ incrementTrackCaloriesUsage svc clock (session (profile false 2 3))
     = (Return VUndef, session (profile false 2 3), []).
Proof.
  intros svc s0 s1.
  destruct (incrementTrackCaloriesUsage_spec svc clock s0) as (_ & _ & H0).
  destruct (H0 (profile false 0 9) 9 eq_refl eq_refl eq_refl eq_refl) as [_ Hlow].
  destruct (Hlow eq_refl) as [_ Hst].
  destruct Hst as [Hrun Hten]; [apply accepting_stores; reflexivity|].
  assert (Hs1 : user s1 = Some (spread (data (svc (update_request clock
                  {[ "track_calories_usage" := VInt (9 + 1) ]}
                  (prop (profile false 0 9) "id")))) ∪ profile false 0 9)).
  { unfold s1, after. rewrite Hrun. reflexivity. }
  split; [eexists; split; [exact Hs1 | exact Hten]|].
  split; [|split].
  - destruct (incrementTrackCaloriesUsage_spec svc clock s1) as (_ & _ & H1).
    refine (proj1 (H1 _ 10 Hs1 eq_refl eq_refl Hten) _).
    unfold MAX_FREE_SCANS. lia.
  - apply (proj1 (proj2 (incrementTrackCaloriesUsage_spec svc clock
                           (session (profile true 0 3)))) (profile true 0 3) eq_refl).
    left. reflexivity.
  - apply (proj1 (proj2 (incrementTrackCaloriesUsage_spec svc clock
                           (session (profile false 2 3)))) (profile false 2 3) eq_refl).
    right. reflexivity.
Defined.

Lemma useCreditForScan_spec_witness :
  let svc := accepting ∅ [] in
  useCreditForScan svc clock (session (profile false 0 0))
    = (Return (VBool false), session (profile false 0 0), [])
  /\ result (useCreditForScan svc clock) (session (profile false 2 0))
     = Return (VBool true)
  /\ (exists u', user (after (useCreditForScan svc clock) (session (profile false 2 0)))
                 = Some u'
                 /\ prop u' "credits" = VInt 1).
Proof.
  intros svc. split.
  - exact (proj1 (proj2 (useCreditForScan_spec svc clock (session (profile false 0 0))))
             (profile false 0 0) eq_refl eq_refl).
  - destruct (proj2 (proj2 (useCreditForScan_spec svc clock (session (profile false 2 0))))
                (profile false 2 0) 2 eq_refl eq_refl eq_refl) as [Hres Hst].
    split; [exact Hres|].
    destruct Hst as [Hrun Hone]; [apply accepting_stores; reflexivity|].
    eexists. unfold after. rewrite Hrun. split; [reflexivity | exact Hone].
Defined.

Lemma useCreditForScan_true_on_failed_update_witness :
  let s := session (profile false 2 0) in
  gt (prop (profile false 2 0) "credits") (VInt 0) = true
  /\ result (useCreditForScan (failing "500" "offline") clock) s = Return (VBool true)
  /\ after (useCreditForScan (failing "500" "offline") clock) s
     = {| user := Some (profile false 2 0); loading := false; error := VStr "offline" |}.
Proof.
  intros s. split; [reflexivity|].
  unfold result, after.
  rewrite (useCreditForScan_true_on_failed_update (failing "500" "offline") clock s
             (profile false 2 0) eq_refl eq_refl eq_refl).
  split; reflexivity.
Defined.

Lemma missing_counter_never_incremented_witness :
  let u : obj := {[ "id" := VStr "u1"; "is_premium" := VBool false;
                    "credits" := VInt 0 ]} in
  u !! "track_calories_usage" = None
  /\ remainingFreeScans (Some u) = VInt 10
  /\ canUseForFree (Some u) = VBool true
  /\ incrementTrackCaloriesUsage (accepting ∅ []) clock (session u)
     = (Return VUndef, session u, []).
Proof.
  intros u. split; [reflexivity|].
  destruct (missing_counter_never_incremented (accepting ∅ []) clock (session u) u
              eq_refl eq_refl eq_refl eq_refl) as (Hr & Hf & _ & Hi).
  exact (conj Hr (conj Hf Hi)).
Defined.

(** ** The meal log *)

Section MealLog.

Variable supabase : query -> response.
Variable now : string.

Lemma mealToAdd_lookup (u : obj) (mealItem : value) (k : string) :
  mealToAdd now u mealItem !! k =
    if decide (k = "id") then None
    else if decide (k = "scanned_at") then Some (VStr now)
    else if decide (k = "user_id") then Some (prop u "id")
    else spread mealItem !! k.
Proof.
  unfold mealToAdd. rewrite lookup_delete.
  destruct (decide ("id" = k)) as [<-|Hid]; [reflexivity|].
  rewrite decide_False by congruence. rewrite lookup_insert.
  destruct (decide ("scanned_at" = k)) as [<-|Hat]; [reflexivity|].
  rewrite decide_False by congruence. rewrite lookup_insert.
  destruct (decide ("user_id" = k)) as [<-|Hus]; [reflexivity|].
  rewrite decide_False by congruence. reflexivity.
Qed.

Lemma mealToAdd_ignores_id (u : obj) (o : obj) (x : value) :
  mealToAdd now u (VObj (<["id" := x]> o)) = mealToAdd now u (VObj o).
Proof.
  apply map_eq. intros k. rewrite !mealToAdd_lookup.
  repeat (case_decide; [reflexivity|]). simpl. now apply lookup_insert_ne.
Qed.

Lemma addMealToLog_ok (s : state) (u : obj) (mealItem : value) (rest : list value) :
  let r := supabase (InsertMeal (mealToAdd now u mealItem)) in
  let u' := <["mealLog" := VArr (data r :: rest)]> u in
  user s = Some u ->
  truthy (failure r) = false ->
  iterate (Or (prop u "mealLog") (VArr [])) = Some rest ->
  addMealToLog supabase now mealItem s =
    (Return (data r),
     {| user := Some u'; loading := loading s; error := error s |},
     [Request (InsertMeal (mealToAdd now u mealItem)); SetUser (Some u')]).
Proof.
  intros r u' Hu Hok Hit.
  unfold addMealToLog. unfold bind at 1. unfold getUser. rewrite Hu.
  unfold try_catch, bind, await, throw_if, setUserWith, prependMeal.
  fold r. rewrite Hok. cbn [ret fst snd user]. rewrite Hu, Hit. reflexivity.
Qed.

Lemma addMealToLog_failed (s : state) (u : obj) (mealItem : value) :
  let r := supabase (InsertMeal (mealToAdd now u mealItem)) in
  user s = Some u ->
  truthy (failure r) = true ->
  addMealToLog supabase now mealItem s =
    (Return VNull,
     {| user := user s; loading := loading s; error := get (failure r) "message" |},
     [Request (InsertMeal (mealToAdd now u mealItem));
      ConsoleError "Error adding meal to log:" (failure r);
      SetError (get (failure r) "message")]).
Proof.
  intros r Hu Hko. destruct s as [us ls es]. simpl in Hu. subst us.
  unfold addMealToLog. unfold bind at 1. unfold getUser. cbn [user].
  unfold try_catch, bind, await, throw_if.
  fold r. rewrite Hko. reflexivity.
Qed.

(** A [mealLog] that cannot be spread makes the state updater throw. *)
Lemma addMealToLog_not_iterable (s : state) (u : obj) (mealItem : value) :
  let r := supabase (InsertMeal (mealToAdd now u mealItem)) in
  user s = Some u ->
  truthy (failure r) = false ->
  iterate (Or (prop u "mealLog") (VArr [])) = None ->
  addMealToLog supabase now mealItem s =
    (RenderError, s, [Request (InsertMeal (mealToAdd now u mealItem))]).
Proof.
  intros r Hu Hok Hit.
  unfold addMealToLog. unfold bind at 1. unfold getUser. rewrite Hu.
  unfold try_catch, bind, await, throw_if, setUserWith, prependMeal.
  fold r. rewrite Hok. cbn [ret fst snd user]. rewrite Hu, Hit. reflexivity.
Qed.

Lemma addMealToLog_request (s : state) (u : obj) (mealItem : value) :
  user s = Some u ->
  head (trace (addMealToLog supabase now mealItem) s)
    = Some (Request (InsertMeal (mealToAdd now u mealItem))).
Proof.
  intros Hu. unfold trace, addMealToLog. unfold bind at 1. unfold getUser.
  rewrite Hu. unfold try_catch, bind, await, throw_if.
  destruct (truthy (failure (supabase (InsertMeal (mealToAdd now u mealItem)))));
    cbn [ret throw fst snd].
  - reflexivity.
  - unfold setUserWith. cbn [user]. rewrite Hu.
    destruct (prependMeal _ _); reflexivity.
Qed.

(** C6. For a current user [u] and any [mealItem], the record
    [addMealToLog] inserts is a copy of [mealItem] with [user_id] set to
    [u.id], [scanned_at] set to the current time and no [id], whatever [id]
    the client supplied; when the insert succeeds, the entry the service
    returns is put in front of [mealLog] and returned, and it carries that
    [user_id] and [scanned_at] when the service answers with the stored
    row. *)
Theorem addMealToLog_spec (s : state) (u : obj) (mealItem : value) :
  user s = Some u ->
  let row := mealToAdd now u mealItem in
  let r := supabase (InsertMeal row) in
  (row !! "user_id" = Some (prop u "id")
   /\ row !! "scanned_at" = Some (VStr now)
   /\ row !! "id" = None
   /\ (forall k, k <> "id" -> k <> "user_id" -> k <> "scanned_at" ->
         row !! k = spread mealItem !! k))
  /\ (forall o x, mealToAdd now u (VObj (<["id" := x]> o)) = mealToAdd now u (VObj o))
  /\ head (trace (addMealToLog supabase now mealItem) s) = Some (Request (InsertMeal row))
  /\ (forall rest,
        truthy (failure r) = false ->
        iterate (Or (prop u "mealLog") (VArr [])) = Some rest ->
        let u' := <["mealLog" := VArr (data r :: rest)]> u in
        addMealToLog supabase now mealItem s =
          (Return (data r),
           {| user := Some u'; loading := loading s; error := error s |},
           [Request (InsertMeal row); SetUser (Some u')])
        /\ prop u' "mealLog" = VArr (data r :: rest)
        /\ (row ⊆ spread (data r) ->
            prop (spread (data r)) "user_id" = prop u "id"
            /\ prop (spread (data r)) "scanned_at" = VStr now)).
Proof.
  intros Hu row r. split; [|split; [|split]].
  - subst row. rewrite !mealToAdd_lookup. repeat split.
    intros k Hid Hus Hat. rewrite mealToAdd_lookup.
    now rewrite !decide_False by assumption.
  - intros o x. apply mealToAdd_ignores_id.
  - now apply addMealToLog_request.
  - intros rest Hok Hit u'. split; [|split].
    + now apply addMealToLog_ok.
    + apply prop_lookup, lookup_insert_eq.
    + intros Hsub. split; apply prop_lookup.
      * apply (lookup_weaken row); [|exact Hsub].
        subst row. now rewrite mealToAdd_lookup.
      * apply (lookup_weaken row); [|exact Hsub].
        subst row. now rewrite mealToAdd_lookup.
Qed.

End MealLog.

Lemma addMealToLog_spec_witness :
  let apple := VObj {[ "name" := VStr "Apple"; "calories" := VInt 95;
                       "id" := VStr "client-7" ]} in
  let u := <["mealLog" := VArr [VStr "older"]]> (profile false 0 0) in
  let svc := accepting ∅ [] in
  exists first u',
    result (addMealToLog svc clock apple) (session u) = Return first
    /\ user (after (addMealToLog svc clock apple) (session u)) = Some u'
    /\ prop u' "mealLog" = VArr [first; VStr "older"]
    /\ get first "user_id" = VStr "u1"
    /\ get first "scanned_at" = VStr clock
    /\ get first "id" = VStr "m-1".
Proof.
  intros apple u svc.
  destruct (addMealToLog_spec svc clock (session u) u apple eq_refl)
    as ((_ & _ & Hid & _) & _ & _ & Hok).
  destruct (Hok [VStr "older"] eq_refl eq_refl) as (Hrun & Hlog & Hrow).
  destruct Hrow as [Hus Hat]; [now apply insert_subseteq|].
  eexists. eexists. unfold result, after. rewrite Hrun.
  split; [reflexivity|]. split; [reflexivity|]. split; [exact Hlog|].
  split; [exact Hus|]. split; [exact Hat|]. reflexivity.
Defined.

(** ** Fetching the profile *)

Section Fetch.

Variable supabase : query -> response.

(** The four ways a fetch proceeds, as the states and events it produces. *)
Lemma fetchUserProfile_unfold (userId : value) (s : state) :
  let p := supabase (SelectProfile userId) in
  let m := supabase (SelectMealLogs userId) in
  let start := [SetLoading true; SetError VNull; Request (SelectProfile userId)] in
  let caught (e : value) :=
    [ConsoleError "Error fetching user data:" e; SetError (get e "message");
     SetUser None; SetLoading false] in
  fetchUserProfile supabase userId s =
    if truthy (failure p) && strict_ne_str (get (failure p) "code") "PGRST116"
    then (Return tt,
          {| user := None; loading := false; error := get (failure p) "message" |},
          start ++ caught (failure p))
    else if truthy (data p)
    then if truthy (failure m)
         then (Return tt,
               {| user := None; loading := false; error := get (failure m) "message" |},
               start ++ Request (SelectMealLogs userId) :: caught (failure m))
         else let u := <["mealLog" := Or (data m) (VArr [])]> (spread (data p)) in
              (Return tt,
               {| user := Some u; loading := false; error := VNull |},
               start ++ [Request (SelectMealLogs userId); SetUser (Some u);
                         SetLoading false])
    else (Return tt,
          {| user := None; loading := false; error := VNull |},
          start ++ [SetUser None; SetLoading false]).
Proof.
  intros p m start caught.
  unfold fetchUserProfile, finally, try_catch, bind, await, throw_if.
  fold p. fold m.
  destruct (truthy (failure p) && strict_ne_str (get (failure p) "code") "PGRST116");
    [reflexivity|].
  destruct (truthy (data p)); [|reflexivity].
  cbn [setLoading setError ret fst snd].
  fold m. destruct (truthy (failure m)); reflexivity.
Qed.

(** C8. [fetchUserProfile] first sets [loading] to true and clears [error];
    a "no rows" answer without a profile sets [user] to null and leaves
    [error] cleared; any other failure of the profile query, and a failure
    of the meal-log query, set [error] to the failure message and [user] to
    null; and in every case the operation completes with [loading]
    false. *)
Theorem fetchUserProfile_spec (userId : value) (s : state) :
  let p := supabase (SelectProfile userId) in
  let m := supabase (SelectMealLogs userId) in
  let s' := after (fetchUserProfile supabase userId) s in
  (exists rest, trace (fetchUserProfile supabase userId) s
                = SetLoading true :: SetError VNull :: rest)
  /\ (result (fetchUserProfile supabase userId) s = Return tt /\ loading s' = false)
  /\ (get (failure p) "code" = VStr "PGRST116" -> truthy (data p) = false ->
        user s' = None /\ error s' = VNull
        /\ trace (fetchUserProfile supabase userId) s
           = [SetLoading true; SetError VNull; Request (SelectProfile userId);
              SetUser None; SetLoading false])
  /\ (truthy (failure p) = true ->
      strict_ne_str (get (failure p) "code") "PGRST116" = true ->
        user s' = None /\ error s' = get (failure p) "message")
  /\ (truthy (failure p) = false -> truthy (data p) = true ->
      truthy (failure m) = true ->
        user s' = None /\ error s' = get (failure m) "message")
  /\ (truthy (failure p) = false -> truthy (data p) = true ->
      truthy (failure m) = false ->
        user s' = Some (<["mealLog" := Or (data m) (VArr [])]> (spread (data p)))
        /\ error s' = VNull).
Proof.
  intros p m s'. subst s'. unfold trace, result, after.
  rewrite (fetchUserProfile_unfold userId s). fold p. fold m.
  split; [|split; [|split; [|split; [|split]]]].
  - destruct (truthy (failure p) && _); [eexists; reflexivity|].
    destruct (truthy (data p)); [|eexists; reflexivity].
    destruct (truthy (failure m)); eexists; reflexivity.
  - destruct (truthy (failure p) && _); [split; reflexivity|].
    destruct (truthy (data p)); [|split; reflexivity].
    destruct (truthy (failure m)); split; reflexivity.
  - intros Hcode Hnone. rewrite Hcode, Hnone.
    replace (strict_ne_str (VStr "PGRST116") "PGRST116") with false by reflexivity.
    rewrite andb_false_r. repeat split.
  - intros Hp Hcode. rewrite Hp, Hcode. split; reflexivity.
  - intros Hp Hd Hm. rewrite Hp, Hd, Hm. split; reflexivity.
  - intros Hp Hd Hm. rewrite Hp, Hd, Hm. split; reflexivity.
Qed.

End Fetch.

Lemma fetchUserProfile_spec_witness :
  let s := {| user := Some (profile false 1 1); loading := false;
              error := VStr "stale" |} in
  after (fetchUserProfile (failing "PGRST116" "no rows") (VStr "u1")) s
    = {| user := None; loading := false; error := VNull |}
  /\ after (fetchUserProfile (failing "08006" "connection lost") (VStr "u1")) s
     = {| user := None; loading := false; error := VStr "connection lost" |}
  /\ after (fetchUserProfile (failing_meals (profile false 1 1) "timeout") (VStr "u1")) s
     = {| user := None; loading := false; error := VStr "timeout" |}.
Proof.
  intros s. split; [|split].
  - destruct (fetchUserProfile_spec (failing "PGRST116" "no rows") (VStr "u1") s)
      as (_ & [_ Hl] & Hnone & _).
    destruct (Hnone eq_refl eq_refl) as (Hu & He & _).
    destruct (after _ s) as [u l e]. simpl in *. now rewrite Hu, Hl, He.
  - destruct (fetchUserProfile_spec (failing "08006" "connection lost") (VStr "u1") s)
      as (_ & [_ Hl] & _ & Hfail & _).
    destruct (Hfail eq_refl eq_refl) as (Hu & He).
    destruct (after _ s) as [u l e]. simpl in *. now rewrite Hu, Hl, He.
  - destruct (fetchUserProfile_spec (failing_meals (profile false 1 1) "timeout")
                (VStr "u1") s) as (_ & [_ Hl] & _ & _ & Hmeals & _).
    destruct (Hmeals eq_refl eq_refl eq_refl) as (Hu & He).
    destruct (after _ s) as [u l e]. simpl in *. now rewrite Hu, Hl, He.
Defined.

(** ** Counters are integers that are not negative *)

Section Counters.

Lemma less_int_l (z : Z) (v : value) :
  less (VInt z) v =
    match ToNumber v with Int y => Some (z <? y) | NaN => None end.
Proof. destruct v as [| |b|[y|]|str|l|o]; reflexivity. Qed.

Lemma counter_neq (k k' : string) :
  counter k -> k' = "mealLog" \/ k' = "updated_at" \/ k' = "is_premium" -> k' <> k.
Proof. intros [-> | ->] [-> | [-> | ->]]; discriminate. Qed.

Lemma natural_int (z : Z) : 0 <= z -> natural (VInt z).
Proof. intros H. now exists z. Qed.

Lemma natural_inv (z : Z) : natural (VInt z) -> 0 <= z.
Proof. intros (y & [= ->] & H). exact H. Qed.

Variable supabase : query -> response.
Variable now : string.
Hypothesis service : honest supabase.

(** [updateProfile] keeps the counters of a current user, whenever those it
    sends are non-negative integers. *)
Lemma updateProfile_keeps (userId : value) (updates : obj) (s : state) (u : obj) :
  user s = Some u ->
  counters_ok s ->
  (forall k v, counter k -> updates !! k = Some v -> natural v) ->
  counters_ok (after (updateProfile supabase now userId updates) s).
Proof.
  intros Hu Hs Hupd.
  set (r := supabase (update_request now updates userId)).
  unfold after. destruct (truthy (failure r)) eqn:Hr.
  - rewrite (updateProfile_failed supabase now userId updates s Hr). exact Hs.
  - rewrite (updateProfile_ok supabase now userId updates s Hr).
    intros u' k Hu' Hk. cbn [fst snd user] in Hu'. injection Hu' as <-.
    rewrite Hu. unfold prop. rewrite merge_lookup. fold r.
    destruct (spread (data r) !! k) as [v|] eqn:Hv.
    + simpl. destruct (proj2 service _ userId k v Hk Hv) as [Hnat | Hsent];
        [exact Hnat|].
      rewrite lookup_insert_ne in Hsent by (apply counter_neq; auto).
      now apply (Hupd k v).
    + exact (Hs u k Hu Hk).
Qed.

Lemma then_keeps {A} (a : A) (userId : value) (updates : obj) (s : state) (u : obj) :
  user s = Some u ->
  counters_ok s ->
  (forall k v, counter k -> updates !! k = Some v -> natural v) ->
  counters_ok (after (bind (updateProfile supabase now userId updates)
                           (fun _ => ret a)) s).
Proof.
  intros Hu Hs Hupd.
  pose proof (updateProfile_keeps userId updates s u Hu Hs Hupd) as H.
  unfold after, bind in *.
  set (r := supabase (update_request now updates userId)).
  destruct (truthy (failure r)) eqn:Hr.
  - rewrite (updateProfile_failed supabase now userId updates s Hr) in *. exact H.
  - rewrite (updateProfile_ok supabase now userId updates s Hr) in *. exact H.
Qed.

Lemma singleton_counter (k0 : string) (v0 : value) :
  (counter k0 -> natural v0) ->
  forall k v, counter k -> ({[ k0 := v0 ]} : obj) !! k = Some v -> natural v.
Proof.
  intros H k v Hk Hv. apply lookup_singleton_Some in Hv as [-> <-]. now apply H.
Qed.

Lemma addMealToLog_user (mealItem : value) (s : state) (u : obj) :
  user s = Some u ->
  user (after (addMealToLog supabase now mealItem) s) = Some u
  \/ exists x, user (after (addMealToLog supabase now mealItem) s)
               = Some (<["mealLog" := x]> u).
Proof.
  intros Hu. unfold after.
  destruct (truthy (failure (supabase (InsertMeal (mealToAdd now u mealItem)))))
    eqn:Hr.
  - rewrite (addMealToLog_failed supabase now s u mealItem Hu Hr). now left.
  - destruct (iterate (Or (prop u "mealLog") (VArr []))) as [rest|] eqn:Hit.
    + rewrite (addMealToLog_ok supabase now s u mealItem rest Hu Hr Hit).
      right. eexists. reflexivity.
    + rewrite (addMealToLog_not_iterable supabase now s u mealItem Hu Hr Hit).
      now left.
Qed.

Lemma addCredits_unfold (amount : value) (s : state) (u : obj) :
  user s = Some u ->
  addCredits supabase now amount s =
    bind (updateProfile supabase now (prop u "id")
            {[ "credits" := add (Or (prop u "credits") (VInt 0)) amount ]})
         (fun _ => ret VUndef) s.
Proof.
  intros Hu. unfold addCredits. unfold bind at 1. unfold getUser. rewrite Hu.
  match goal with |- context [bind ?m ?k s] => destruct (bind m k s) as [[r s2] t2] end.
  reflexivity.
Qed.

Lemma setPremium_unfold (isPremiumStatus : value) (s : state) (u : obj) :
  user s = Some u ->
  setPremium supabase now isPremiumStatus s =
    bind (updateProfile supabase now (prop u "id")
            {[ "is_premium" := isPremiumStatus ]})
         (fun _ => ret VUndef) s.
Proof.
  intros Hu. unfold setPremium. unfold bind at 1. unfold getUser. rewrite Hu.
  match goal with |- context [bind ?m ?k s] => destruct (bind m k s) as [[r s2] t2] end.
  reflexivity.
Qed.

Lemma fetch_keeps (userId : value) (s : state) :
  counters_ok (after (fetchUserProfile supabase userId) s).
Proof.
  unfold after. rewrite fetchUserProfile_unfold.
  set (p := supabase (SelectProfile userId)).
  set (m := supabase (SelectMealLogs userId)).
  destruct (truthy (failure p) && _); [intros u k; discriminate|].
  destruct (truthy (data p)) eqn:Hd; [|intros u k; discriminate].
  destruct (truthy (failure m)); [intros u k; discriminate|].
  intros u k Hu Hk. cbn [fst snd user] in Hu. injection Hu as <-.
  pose proof (proj1 service userId k Hk Hd) as Hnat. fold p in Hnat.
  unfold prop in *. now rewrite lookup_insert_ne by (apply counter_neq; auto).
Qed.

End Counters.

Lemma accepting_honest (row : obj) (meals : list value) :
  (forall k, counter k -> natural (prop row k)) ->
  honest (accepting row meals).
Proof.
  intros Hrow. split.
  - intros userId k Hk _. now apply Hrow.
  - intros fields userId k v Hk Hv. now right.
Qed.

Lemma profile_natural (premium : bool) (credits usage : Z) (k : string) :
  0 <= credits -> 0 <= usage -> counter k ->
  natural (prop (profile premium credits usage) k).
Proof.
  intros Hc Hu [-> | ->].
  - change (prop (profile premium credits usage) "credits") with (VInt credits).
    now apply natural_int.
  - change (prop (profile premium credits usage) "track_calories_usage")
      with (VInt usage).
    now apply natural_int.
Qed.

Lemma profile_counters_ok (premium : bool) (credits usage : Z) :
  0 <= credits -> 0 <= usage -> counters_ok (session (profile premium credits usage)).
Proof.
  intros Hc Hu u k Hsome Hk. injection Hsome as <-. now apply profile_natural.
Qed.

(** C2, as the code has it.  For a user whose [credits] and
    [track_calories_usage] are non-negative integers, and a service that
    keeps to the data model, every operation leaves both non-negative
    integers, [addCredits] when its amount is an integer [a] with
    [credits + a >= 0].  [addCredits] does not reject a negative amount:
    for every integer [a] with [credits + a < 0], once the service has
    stored the update the user's credits is [credits + a], a negative
    number. *)
Theorem counters_preserved (supabase : query -> response) (now : string) (s : state) :
  honest supabase -> counters_ok s ->
  counters_ok (after (incrementTrackCaloriesUsage supabase now) s)
  /\ counters_ok (after (useCreditForScan supabase now) s)
  /\ (forall u c a, user s = Some u -> prop u "credits" = VInt c ->
        0 <= c + a ->
        counters_ok (after (addCredits supabase now (VInt a)) s))
  /\ (forall u c a, user s = Some u -> prop u "credits" = VInt c ->
        c + a < 0 ->
        stored (supabase (update_request now {[ "credits" := VInt (c + a) ]}
                            (prop u "id")))
               {[ "credits" := VInt (c + a) ]} ->
        (exists u', user (after (addCredits supabase now (VInt a)) s) = Some u'
                    /\ prop u' "credits" = VInt (c + a))
        /\ ~ counters_ok (after (addCredits supabase now (VInt a)) s))
  /\ (forall flag, counters_ok (after (setPremium supabase now flag) s))
  /\ (forall mealItem, counters_ok (after (addMealToLog supabase now mealItem) s))
  /\ (forall userId, counters_ok (after (fetchUserProfile supabase userId) s))
  /\ (forall u userId updates, user s = Some u ->
        (forall k v, counter k -> updates !! k = Some v -> natural v) ->
        counters_ok (after (updateProfile supabase now userId updates) s)).
Proof.
  intros Hsvc Hs.
  destruct (user s) as [u|] eqn:Hu.
  - split; [|split; [|split; [|split; [|split; [|split; [|split]]]]]].
    + unfold after at 1. rewrite (increment_unfold supabase now s u Hu).
      destruct (truthy (prop u "is_premium") || gt (prop u "credits") (VInt 0));
        [exact Hs|].
      destruct (Hs u "track_calories_usage" Hu (or_intror eq_refl)) as (n & Hn & Hpos).
      rewrite Hn.
      destruct (lt (VInt n) (VInt MAX_FREE_SCANS)); [|exact Hs].
      apply (then_keeps supabase now Hsvc VUndef _ _ s u Hu Hs).
      apply singleton_counter. intros _.
      change (add (VInt n) (VInt 1)) with (VInt (n + 1)). apply natural_int. lia.
    + unfold after at 1. rewrite (useCredit_unfold supabase now s u Hu).
      destruct (Hs u "credits" Hu (or_introl eq_refl)) as (c & Hc & Hpos).
      rewrite Hc.
      destruct (le (VInt c) (VInt 0)) eqn:Hle; [exact Hs|].
      apply (then_keeps supabase now Hsvc (VBool true) _ _ s u Hu Hs).
      apply singleton_counter. intros _.
      change (sub (VInt c) (VInt 1)) with (VInt (c - 1)). apply natural_int.
      cbn in Hle. apply negb_false_iff, Z.ltb_lt in Hle. lia.
    + intros u0 c a [= <-] Hc Hsum. unfold after at 1.
      rewrite (addCredits_unfold supabase now (VInt a) s u Hu), Hc, or_int.
      apply (then_keeps supabase now Hsvc VUndef _ _ s u Hu Hs).
      apply singleton_counter. intros _.
      change (add (VInt c) (VInt a)) with (VInt (c + a)). now apply natural_int.
    + intros u0 c a [= <-] Hc Hsum Hst. unfold after.
      rewrite (addCredits_unfold supabase now (VInt a) s u Hu), Hc, or_int.
      change (add (VInt c) (VInt a)) with (VInt (c + a)).
      rewrite (update_then_ok supabase now VUndef _ _ s (proj1 Hst)).
      cbn [fst snd user]. rewrite Hu. cbn [from_option id].
      pose proof (stored_field _ _ _ u Hst) as Hnew.
      split; [eexists; split; [reflexivity | exact Hnew]|].
      intros Hok. specialize (Hok _ "credits" eq_refl (or_introl eq_refl)).
      rewrite Hnew in Hok. apply natural_inv in Hok. lia.
    + intros flag. unfold after at 1.
      rewrite (setPremium_unfold supabase now flag s u Hu).
      apply (then_keeps supabase now Hsvc VUndef _ _ s u Hu Hs).
      apply singleton_counter. intros [Hk | Hk]; discriminate.
    + intros mealItem u' k Hu' Hk.
      destruct (addMealToLog_user supabase now mealItem s u Hu) as [H | [x H]];
        rewrite H in Hu'; injection Hu' as <-.
      * now apply (Hs u).
      * unfold prop. rewrite lookup_insert_ne by (apply counter_neq; auto).
        now apply (Hs u).
    + intros userId. now apply fetch_keeps.
    + intros u0 userId updates [= <-] Hupd.
      now apply (updateProfile_keeps supabase now Hsvc userId updates s u).
  - split; [|split; [|split; [|split; [|split; [|split; [|split]]]]]].
    + unfold after, incrementTrackCaloriesUsage, bind, getUser. now rewrite Hu.
    + unfold after, useCreditForScan, bind, getUser. now rewrite Hu.
    + intros u0 c a [=].
    + intros u0 c a [=].
    + intros flag. unfold after, setPremium, bind, getUser. now rewrite Hu.
    + intros mealItem. unfold after, addMealToLog, bind, getUser. now rewrite Hu.
    + intros userId. now apply fetch_keeps.
    + intros u0 userId updates [=].
Qed.

Lemma counters_preserved_witness :
  let svc := accepting (profile false 2 3) [] in
  let s := session (profile false 5 3) in
  honest svc /\ counters_ok s
  /\ counters_ok (after (addCredits svc clock (VInt (-2))) s)
  /\ counters_ok (after (useCreditForScan svc clock) s)
  /\ counters_ok (after (incrementTrackCaloriesUsage svc clock) s)
  /\ ~ counters_ok (after (addCredits svc clock (VInt (-6))) s).
Proof.
  intros svc s.
  assert (Hsvc : honest svc).
  { apply accepting_honest. intros k. apply profile_natural; lia. }
  assert (Hs : counters_ok s) by (apply profile_counters_ok; lia).
  destruct (counters_preserved svc clock s Hsvc Hs)
    as (Hinc & Huse & Hadd & Hneg & _).
  split; [exact Hsvc|]. split; [exact Hs|].
  split; [apply (Hadd (profile false 5 3) 5 (-2) eq_refl eq_refl); lia|].
  split; [exact Huse|]. split; [exact Hinc|].
  apply (Hneg (profile false 5 3) 5 (-6) eq_refl eq_refl); [lia|].
  apply accepting_stores. reflexivity.
Defined.

(** C2, as stated, fails: from zero credits, [addCredits(-1)] with a service
    that stores what it is sent leaves the user with [credits = -1]. *)
Lemma addCredits_negative_amount :
  let svc := accepting ∅ [] in
  let s := session (profile false 0 0) in
  let s' := after (addCredits svc clock (VInt (-1))) s in
  counters_ok s
  /\ (exists u', user s' = Some u' /\ prop u' "credits" = VInt (-1))
  /\ ~ counters_ok s'.
Proof.
  intros svc s s'.
  assert (Hu' : exists u', user s' = Some u' /\ prop u' "credits" = VInt (-1)).
  { eexists. split; [vm_compute; reflexivity|]. vm_compute. reflexivity. }
  split; [apply profile_counters_ok; lia|]. split; [exact Hu'|].
  destruct Hu' as (u' & Hsome & Hcredits). intros Hok.
  specialize (Hok u' "credits" Hsome (or_introl eq_refl)).
  rewrite Hcredits in Hok. apply natural_inv in Hok. lia.
Qed.

(** * Further properties of the hook *)

(** ** What the operations never do *)

Section Conduct.

Variable supabase : query -> response.
Variable now : string.

Lemma no_user_noop (s : state) :
  user s = None ->
  incrementTrackCaloriesUsage supabase now s = (Return VUndef, s, [])
  /\ useCreditForScan supabase now s = (Return (VBool false), s, [])
  /\ (forall amount, addCredits supabase now amount s = (Return VUndef, s, []))
  /\ (forall flag, setPremium supabase now flag s = (Return VUndef, s, []))
  /\ (forall mealItem, addMealToLog supabase now mealItem s = (Return VUndef, s, [])).
Proof.
  intros Hu. repeat split; intros;
    unfold incrementTrackCaloriesUsage, useCreditForScan, addCredits, setPremium,
      addMealToLog, bind, getUser; now rewrite Hu.
Qed.

(** Everything a run of [updateProfile] followed by a fixed return value
    does, in one statement. *)
Lemma update_then_summary {A} (a : A) (userId : value) (updates : obj) (s : state) :
  let m := bind (updateProfile supabase now userId updates) (fun _ => ret a) in
  let r := supabase (update_request now updates userId) in
  result m s = Return a
  /\ loading (after m s) = loading s
  /\ requests (trace m s) = [update_request now updates userId]
  /\ (if truthy (failure r)
      then user (after m s) = user s /\ error (after m s) = get (failure r) "message"
      else user (after m s) = Some (spread (data r) ∪ from_option id ∅ (user s))
           /\ error (after m s) = error s).
Proof.
  intros m r. subst m. unfold result, after, trace.
  destruct (truthy (failure r)) eqn:Hr.
  - rewrite (update_then_failed supabase now a userId updates s Hr). repeat split.
  - rewrite (update_then_ok supabase now a userId updates s Hr). repeat split.
Qed.

Lemma updateProfile_summary (userId : value) (updates : obj) (s : state) :
  let m := updateProfile supabase now userId updates in
  let r := supabase (update_request now updates userId) in
  (exists v, result m s = Return v)
  /\ loading (after m s) = loading s
  /\ requests (trace m s) = [update_request now updates userId]
  /\ (if truthy (failure r)
      then user (after m s) = user s /\ error (after m s) = get (failure r) "message"
      else user (after m s) = Some (spread (data r) ∪ from_option id ∅ (user s))
           /\ error (after m s) = error s).
Proof.
  intros m r. subst m. unfold result, after, trace.
  destruct (truthy (failure r)) eqn:Hr.
  - rewrite (updateProfile_failed supabase now userId updates s Hr).
    repeat split. now eexists.
  - rewrite (updateProfile_ok supabase now userId updates s Hr).
    repeat split. now eexists.
Qed.

(** Everything a run of [addMealToLog] does for a current user. *)
Lemma addMealToLog_summary (mealItem : value) (s : state) (u : obj) :
  user s = Some u ->
  let m := addMealToLog supabase now mealItem in
  let r := supabase (InsertMeal (mealToAdd now u mealItem)) in
  (forall e, result m s <> Throw e)
  /\ loading (after m s) = loading s
  /\ requests (trace m s) = [InsertMeal (mealToAdd now u mealItem)]
  /\ (if truthy (failure r)
      then error (after m s) = get (failure r) "message"
      else error (after m s) = error s).
Proof.
  intros Hu m r. subst m. unfold result, after, trace.
  destruct (truthy (failure r)) eqn:Hr.
  - rewrite (addMealToLog_failed supabase now s u mealItem Hu Hr).
    repeat split. intros e; discriminate.
  - destruct (iterate (Or (prop u "mealLog") (VArr []))) as [rest|] eqn:Hit.
    + rewrite (addMealToLog_ok supabase now s u mealItem rest Hu Hr Hit).
      repeat split. intros e; discriminate.
    + rewrite (addMealToLog_not_iterable supabase now s u mealItem Hu Hr Hit).
      repeat split. intros e; discriminate.
Qed.

(** What every run of [fetchUserProfile] has in common. *)
Lemma fetch_summary (userId : value) (s : state) :
  let m := fetchUserProfile supabase userId in
  result m s = Return tt
  /\ loading (after m s) = false
  /\ (requests (trace m s) = [SelectProfile userId]
      \/ requests (trace m s) = [SelectProfile userId; SelectMealLogs userId]).
Proof.
  intros m. subst m. unfold result, after, trace.
  rewrite (fetchUserProfile_unfold supabase userId s).
  destruct (truthy (failure _) && _); [repeat split; now left|].
  destruct (truthy (data _)); [|repeat split; now left].
  destruct (truthy (failure _)); repeat split; now right.
Qed.

(** X1. No operation of the hook lets a failure of the service escape as an
    exception: [updateProfile], the four entitlement operations and
    [fetchUserProfile] always return, with the value the source gives, and
    [addMealToLog] never throws. *)
Theorem service_failures_never_escape (s : state) :
  (forall userId updates, exists v,
      result (updateProfile supabase now userId updates) s = Return v)
  /\ result (incrementTrackCaloriesUsage supabase now) s = Return VUndef
  /\ (forall amount, result (addCredits supabase now amount) s = Return VUndef)
  /\ (exists b, result (useCreditForScan supabase now) s = Return (VBool b))
  /\ (forall flag, result (setPremium supabase now flag) s = Return VUndef)
  /\ (forall userId, result (fetchUserProfile supabase userId) s = Return tt)
  /\ (forall mealItem e, result (addMealToLog supabase now mealItem) s <> Throw e).
Proof.
  destruct (user s) as [u|] eqn:Hu.
  - repeat split.
    + intros userId updates. apply updateProfile_summary.
    + unfold result. rewrite (increment_unfold supabase now s u Hu).
      destruct (_ || _); [reflexivity|]. destruct (lt _ _); [|reflexivity].
      apply update_then_summary.
    + intros amount. unfold result.
      rewrite (addCredits_unfold supabase now amount s u Hu).
      apply update_then_summary.
    + unfold result. rewrite (useCredit_unfold supabase now s u Hu).
      destruct (le _ _); [now exists false|]. exists true.
      apply update_then_summary.
    + intros flag. unfold result.
      rewrite (setPremium_unfold supabase now flag s u Hu).
      apply update_then_summary.
    + intros userId. apply fetch_summary.
    + intros mealItem. apply (addMealToLog_summary mealItem s u Hu).
  - destruct (no_user_noop s Hu) as (Hi & Hc & Ha & Hp & Hm). repeat split.
    + intros userId updates. apply updateProfile_summary.
    + unfold result. now rewrite Hi.
    + intros amount. unfold result. now rewrite Ha.
    + exists false. unfold result. now rewrite Hc.
    + intros flag. unfold result. now rewrite Hp.
    + intros userId. apply fetch_summary.
    + intros mealItem e. unfold result. now rewrite Hm.
Qed.

(** X2. Only [fetchUserProfile] touches [loading], and no writing operation
    clears [error]: after [updateProfile], an entitlement operation or
    [addMealToLog], [loading] is what it was, and [error] is what it was or
    the message of a failure the service has just answered with. *)
Theorem writes_keep_loading_and_error (s : state) :
  let settled (s' : state) :=
    loading s' = loading s
    /\ (error s' = error s
        \/ exists q, truthy (failure (supabase q)) = true
                     /\ error s' = get (failure (supabase q)) "message") in
  (forall userId updates, settled (after (updateProfile supabase now userId updates) s))
  /\ settled (after (incrementTrackCaloriesUsage supabase now) s)
  /\ (forall amount, settled (after (addCredits supabase now amount) s))
  /\ settled (after (useCreditForScan supabase now) s)
  /\ (forall flag, settled (after (setPremium supabase now flag) s))
  /\ (forall mealItem, settled (after (addMealToLog supabase now mealItem) s)).
Proof.
  intros settled.
  assert (Hsame : settled s) by (split; [reflexivity | now left]).
  assert (Hthen : forall A (a : A) userId updates,
             settled (after (bind (updateProfile supabase now userId updates)
                                  (fun _ => ret a)) s)).
  { intros A a userId updates.
    destruct (update_then_summary a userId updates s) as (_ & Hl & _ & Hif).
    split; [exact Hl|].
    destruct (truthy (failure _)) eqn:Hr; [right | left; apply Hif].
    eexists. split; [exact Hr | apply Hif]. }
  destruct (user s) as [u|] eqn:Hu.
  - split; [|split; [|split; [|split; [|split]]]].
    + intros userId updates.
      destruct (updateProfile_summary userId updates s) as (_ & Hl & _ & Hif).
      split; [exact Hl|].
      destruct (truthy (failure _)) eqn:Hr; [right | left; apply Hif].
      eexists. split; [exact Hr | apply Hif].
    + unfold after at 1. rewrite (increment_unfold supabase now s u Hu).
      destruct (_ || _); [exact Hsame|]. destruct (lt _ _); [|exact Hsame].
      apply Hthen.
    + intros amount. unfold after at 1.
      rewrite (addCredits_unfold supabase now amount s u Hu). apply Hthen.
    + unfold after at 1. rewrite (useCredit_unfold supabase now s u Hu).
      destruct (le _ _); [exact Hsame | apply Hthen].
    + intros flag. unfold after at 1.
      rewrite (setPremium_unfold supabase now flag s u Hu). apply Hthen.
    + intros mealItem.
      destruct (addMealToLog_summary mealItem s u Hu) as (_ & Hl & _ & Hif).
      split; [exact Hl|].
      destruct (truthy (failure _)) eqn:Hr; [right | left; exact Hif].
      eexists. split; [exact Hr | exact Hif].
  - destruct (no_user_noop s Hu) as (Hi & Hc & Ha & Hp & Hm).
    split; [|split; [|split; [|split; [|split]]]].
    + intros userId updates.
      destruct (updateProfile_summary userId updates s) as (_ & Hl & _ & Hif).
      split; [exact Hl|].
      destruct (truthy (failure _)) eqn:Hr; [right | left; apply Hif].
      eexists. split; [exact Hr | apply Hif].
    + unfold after. now rewrite Hi.
    + intros amount. unfold after. now rewrite Ha.
    + unfold after. now rewrite Hc.
    + intros flag. unfold after. now rewrite Hp.
    + intros mealItem. unfold after. now rewrite Hm.
Qed.

(** X3. The requests of each operation, failure paths included.  For a
    current user [u], an entitlement operation sends at most one request,
    an update of the row [u.id] carrying one column and [updated_at];
    [addMealToLog] sends the one insert; [fetchUserProfile] only reads: the
    profile, and then the meal log or nothing. *)
Theorem requests_of_operations (s : state) (u : obj) :
  user s = Some u ->
  let usage := prop u "track_calories_usage" in
  let credits := prop u "credits" in
  (requests (trace (incrementTrackCaloriesUsage supabase now) s) = []
   \/ requests (trace (incrementTrackCaloriesUsage supabase now) s)
      = [update_request now {[ "track_calories_usage" := add usage (VInt 1) ]}
           (prop u "id")])
  /\ (forall amount,
        requests (trace (addCredits supabase now amount) s)
        = [update_request now {[ "credits" := add (Or credits (VInt 0)) amount ]}
             (prop u "id")])
  /\ (requests (trace (useCreditForScan supabase now) s) = []
      \/ requests (trace (useCreditForScan supabase now) s)
         = [update_request now {[ "credits" := sub credits (VInt 1) ]} (prop u "id")])
  /\ (forall flag,
        requests (trace (setPremium supabase now flag) s)
        = [update_request now {[ "is_premium" := flag ]} (prop u "id")])
  /\ (forall mealItem,
        requests (trace (addMealToLog supabase now mealItem) s)
        = [InsertMeal (mealToAdd now u mealItem)])
  /\ (forall userId,
        requests (trace (fetchUserProfile supabase userId) s) = [SelectProfile userId]
        \/ requests (trace (fetchUserProfile supabase userId) s)
           = [SelectProfile userId; SelectMealLogs userId]).
Proof.
  intros Hu usage credits. repeat apply conj.
  - unfold trace. rewrite (increment_unfold supabase now s u Hu).
    destruct (_ || _); [now left|]. destruct (lt _ _); [|now left].
    right. apply update_then_summary.
  - intros amount. unfold trace.
    rewrite (addCredits_unfold supabase now amount s u Hu).
    apply update_then_summary.
  - unfold trace. rewrite (useCredit_unfold supabase now s u Hu).
    destruct (le _ _); [now left|]. right. apply update_then_summary.
  - intros flag. unfold trace.
    rewrite (setPremium_unfold supabase now flag s u Hu).
    apply update_then_summary.
  - intros mealItem. apply (addMealToLog_summary mealItem s u Hu).
  - intros userId. apply fetch_summary.
Qed.

End Conduct.

Lemma requests_of_operations_witness :
  let s := session (profile false 0 10) in
  requests (trace (incrementTrackCaloriesUsage (failing "500" "down") clock) s) = []
  /\ requests (trace (addCredits (failing "500" "down") clock (VInt 2)) s)
     = [update_request clock {[ "credits" := VInt 2 ]} (VStr "u1")]
  /\ requests (trace (useCreditForScan (failing "500" "down") clock) s) = [].
Proof.
  intros s.
  destruct (requests_of_operations (failing "500" "down") clock s (profile false 0 10)
              eq_refl) as (Hi & Ha & Hc & _).
  split; [|split].
  - destruct Hi as [Hi | Hi]; [exact Hi | reflexivity].
  - exact (Ha (VInt 2)).
  - destruct Hc as [Hc | Hc]; [exact Hc | reflexivity].
Defined.

(** ** Entitlement: operations against the derived values *)

Section Modes.

Variable supabase : query -> response.
Variable now : string.

Lemma premium_blocks (u : obj) :
  truthy (prop u "is_premium") = true ->
  canUseForFree (Some u) = VBool false /\ canUseWithCredits (Some u) = VBool false.
Proof.
  intros Hp. unfold canUseForFree, canUseWithCredits.
  rewrite (not_truthy _ Hp). split; reflexivity.
Qed.

Lemma falsy_not_gt (c : value) : truthy c = false -> gt c (VInt 0) = false.
Proof.
  destruct c as [| |[|]|[z|]|str|l|o]; try reflexivity; try discriminate.
  - simpl. intros H. apply negb_false_iff, Z.eqb_eq in H. now subst.
  - simpl. intros H. apply negb_false_iff, String.eqb_eq in H. now subst.
Qed.

Lemma And_true (a : value) (b : bool) :
  And a (VBool b) = VBool true -> truthy a = true /\ b = true.
Proof.
  unfold And. destruct (truthy a) eqn:Ha.
  - intros [= ->]. now split.
  - intros ->. discriminate.
Qed.

Lemma And_truthy (a : value) (b : bool) :
  truthy (And a (VBool b)) = true -> truthy a = true /\ b = true.
Proof.
  unfold And. destruct (truthy a) eqn:Ha; simpl; [now split|].
  rewrite Ha. discriminate.
Qed.

Lemma Not_true (v : value) : truthy (Not v) = true -> truthy v = false.
Proof. unfold Not. simpl. apply negb_true_iff. Qed.

(** X4. [setPremium(flag)], once the service has stored it, makes
    [canUseAsPremium] equal to [flag]; with a truthy [flag] the two other
    modes are then off and [incrementTrackCaloriesUsage] does nothing.
    When the update fails the user is as before. *)
Theorem setPremium_switches_mode (s : state) (u : obj) (flag : value) :
  user s = Some u ->
  let r := supabase (update_request now {[ "is_premium" := flag ]} (prop u "id")) in
  let s' := after (setPremium supabase now flag) s in
  (stored r {[ "is_premium" := flag ]} ->
     user s' = Some (spread (data r) ∪ u)
     /\ canUseAsPremium (user s') = flag
     /\ (truthy flag = true ->
           canUseForFree (user s') = VBool false
           /\ canUseWithCredits (user s') = VBool false
           /\ incrementTrackCaloriesUsage supabase now s' = (Return VUndef, s', [])))
  /\ (truthy (failure r) = true -> user s' = Some u).
Proof.
  intros Hu r s'. subst s'. unfold after.
  rewrite (setPremium_unfold supabase now flag s u Hu). split.
  - intros Hst.
    rewrite (update_then_ok supabase now VUndef _ _ s (proj1 Hst)).
    cbn [fst snd user]. rewrite Hu. fold r.
    pose proof (stored_field r _ _ u Hst) as Hflag.
    split; [reflexivity|]. split; [exact Hflag|]. intros Ht.
    rewrite <- Hflag in Ht. destruct (premium_blocks _ Ht) as [Hf Hc].
    split; [exact Hf|]. split; [exact Hc|].
    rewrite (increment_unfold supabase now
               {| user := Some (spread (data r) ∪ u); loading := loading s;
                  error := error s |} (spread (data r) ∪ u) eq_refl).
    now rewrite Ht.
  - intros Hr. rewrite (update_then_failed supabase now VUndef _ _ s Hr).
    exact Hu.
Qed.

(** X5. [addCredits(amount)] for an integer amount asks for the current
    credits plus the amount, reading missing, null or zero credits as 0; the
    sum is the user's credits once the service has stored it. *)
Theorem addCredits_adds (s : state) (u : obj) (c a : Z) :
  user s = Some u ->
  Or (prop u "credits") (VInt 0) = VInt c ->
  let upd : obj := {[ "credits" := VInt (c + a) ]} in
  let r := supabase (update_request now upd (prop u "id")) in
  let s' := after (addCredits supabase now (VInt a)) s in
  requests (trace (addCredits supabase now (VInt a)) s)
    = [update_request now upd (prop u "id")]
  /\ (stored r upd ->
        user s' = Some (spread (data r) ∪ u)
        /\ prop (spread (data r) ∪ u) "credits" = VInt (c + a)).
Proof.
  intros Hu Hc upd r s'. subst s'. unfold after, trace.
  rewrite (addCredits_unfold supabase now (VInt a) s u Hu), Hc.
  change (add (VInt c) (VInt a)) with (VInt (c + a)). fold upd. split.
  - apply update_then_summary.
  - intros Hst. rewrite (update_then_ok supabase now VUndef _ _ s (proj1 Hst)).
    cbn [fst snd user]. rewrite Hu. split; [reflexivity|].
    exact (stored_field r _ _ u Hst).
Qed.

(** X6. For a user whose [credits] field is missing, [useCreditForScan]
    returns [true] and asks the service to store [credits = NaN], while
    [canUseWithCredits] is [false] for that user: the guard
    [user.credits <= 0] is false for a missing field. *)
Theorem useCreditForScan_missing_credits (s : state) (u : obj) :
  user s = Some u ->
  u !! "credits" = None ->
  result (useCreditForScan supabase now) s = Return (VBool true)
  /\ requests (trace (useCreditForScan supabase now) s)
     = [update_request now {[ "credits" := VNum NaN ]} (prop u "id")]
  /\ canUseWithCredits (user s) = VBool false.
Proof.
  intros Hu Hc. apply prop_missing in Hc. unfold result, trace.
  rewrite (useCredit_unfold supabase now s u Hu), Hc.
  change (le VUndef (VInt 0)) with false.
  change (sub VUndef (VInt 1)) with (VNum NaN). cbv iota.
  split; [apply update_then_summary|]. split; [apply update_then_summary|].
  rewrite Hu. unfold canUseWithCredits. rewrite Hc.
  unfold And, Not. destruct (truthy (prop u "is_premium")); reflexivity.
Qed.

(** X7. When [canUseWithCredits] is [true], [useCreditForScan] goes ahead:
    it returns [true] and sends the decrement of the user's credits. *)
Theorem canUseWithCredits_allows_use (s : state) :
  canUseWithCredits (user s) = VBool true ->
  result (useCreditForScan supabase now) s = Return (VBool true)
  /\ exists u, user s = Some u
       /\ requests (trace (useCreditForScan supabase now) s)
          = [update_request now {[ "credits" := sub (prop u "credits") (VInt 1) ]}
               (prop u "id")].
Proof.
  destruct (user s) as [u|] eqn:Hu; [|discriminate].
  unfold canUseWithCredits. intros H. apply And_true in H as [_ Hgt].
  assert (Hle : le (prop u "credits") (VInt 0) = false).
  { apply gt_le_false. unfold Or in Hgt.
    destruct (truthy (prop u "credits")); [exact Hgt | discriminate]. }
  unfold result, trace. rewrite (useCredit_unfold supabase now s u Hu), Hle.
  split; [apply update_then_summary|].
  exists u. split; [reflexivity | apply update_then_summary].
Qed.

(** X8. When [canUseForFree] is [true] for a user whose counter is a number
    [n], the counter is below the cap and [incrementTrackCaloriesUsage]
    sends the update to [n + 1]. *)
Theorem canUseForFree_allows_increment (s : state) (u : obj) (n : Z) :
  user s = Some u ->
  prop u "track_calories_usage" = VInt n ->
  canUseForFree (user s) = VBool true ->
  n < MAX_FREE_SCANS
  /\ requests (trace (incrementTrackCaloriesUsage supabase now) s)
     = [update_request now {[ "track_calories_usage" := VInt (n + 1) ]} (prop u "id")].
Proof.
  intros Hu Hn. rewrite Hu. unfold canUseForFree. intros H.
  apply And_true in H as [H Hrem]. apply And_truthy in H as [Hp Hzero].
  apply Not_true in Hp. apply strict_eq_num_inv in Hzero.
  assert (Hc : gt (prop u "credits") (VInt 0) = false).
  { apply falsy_not_gt. unfold Or in Hzero.
    destruct (truthy (prop u "credits")) eqn:Ht; [|reflexivity].
    rewrite Hzero in Ht. discriminate. }
  rewrite (remaining_of_int u n Hn) in Hrem.
  assert (Hlt : n < MAX_FREE_SCANS).
  { unfold gt in Hrem. rewrite less_int_l in Hrem. simpl in Hrem.
    apply Z.ltb_lt in Hrem. lia. }
  split; [exact Hlt|]. unfold trace.
  rewrite (increment_unfold supabase now s u Hu), Hp, Hc, Hn.
  replace (lt (VInt n) (VInt MAX_FREE_SCANS)) with true
    by (symmetry; cbn; apply Z.ltb_lt; exact Hlt).
  apply update_then_summary.
Qed.

End Modes.

Lemma setPremium_switches_mode_witness :
  let s := session (profile false 0 3) in
  let s' := after (setPremium (accepting ∅ []) clock (VBool true)) s in
  canUseAsPremium (user s') = VBool true
  /\ canUseForFree (user s') = VBool false
  /\ canUseWithCredits (user s') = VBool false.
Proof.
  intros s s'.
  destruct (proj1 (setPremium_switches_mode (accepting ∅ []) clock s
                     (profile false 0 3) (VBool true) eq_refl))
    as (_ & Hp & Hrest); [apply accepting_stores; reflexivity|].
  destruct (Hrest eq_refl) as (Hf & Hc & _).
  exact (conj Hp (conj Hf Hc)).
Defined.

Lemma addCredits_adds_witness :
  let s := session (profile false 2 0) in
  Or (prop (profile false 2 0) "credits") (VInt 0) = VInt 2
  /\ exists u', user (after (addCredits (accepting ∅ []) clock (VInt 3)) s) = Some u'
                /\ prop u' "credits" = VInt 5.
Proof.
  intros s. split; [reflexivity|].
  destruct (addCredits_adds (accepting ∅ []) clock s (profile false 2 0) 2 3
              eq_refl eq_refl) as [_ Hst].
  destruct Hst as [Hu Hc]; [apply accepting_stores; reflexivity|].
  eexists. split; [exact Hu | exact Hc].
Defined.

Lemma useCreditForScan_missing_credits_witness :
  let u : obj := {[ "id" := VStr "u1"; "is_premium" := VBool false ]} in
  u !! "credits" = None
  /\ result (useCreditForScan (accepting ∅ []) clock) (session u) = Return (VBool true)
  /\ canUseWithCredits (Some u) = VBool false.
Proof.
  intros u. split; [reflexivity|].
  destruct (useCreditForScan_missing_credits (accepting ∅ []) clock (session u) u
              eq_refl eq_refl) as (Hr & _ & Hc).
  exact (conj Hr Hc).
Defined.

Lemma canUseWithCredits_allows_use_witness :
  canUseWithCredits (user (session (profile false 2 0))) = VBool true
  /\ result (useCreditForScan (failing "500" "down") clock) (session (profile false 2 0))
     = Return (VBool true).
Proof.
  split; [reflexivity|].
  exact (proj1 (canUseWithCredits_allows_use (failing "500" "down") clock
                  (session (profile false 2 0)) eq_refl)).
Defined.

Lemma canUseForFree_allows_increment_witness :
  canUseForFree (user (session (profile false 0 4))) = VBool true
  /\ requests (trace (incrementTrackCaloriesUsage (accepting ∅ []) clock)
                 (session (profile false 0 4)))
     = [update_request clock {[ "track_calories_usage" := VInt (4 + 1) ]} (VStr "u1")].
Proof.
  split; [reflexivity|].
  exact (proj2 (canUseForFree_allows_increment (accepting ∅ []) clock
                  (session (profile false 0 4)) (profile false 0 4) 4
                  eq_refl eq_refl eq_refl)).
Defined.

(** X9. [remainingFreeScans] is never a negative number, whatever the user
    object holds; for a counter [n >= 0] it lies between 0 and 10, and it is
    positive exactly when [n] is below the cap. *)
Theorem remainingFreeScans_range (user : option obj) :
  negative (remainingFreeScans user) = false
  /\ (forall u n, user = Some u -> prop u "track_calories_usage" = VInt n -> 0 <= n ->
        exists r, remainingFreeScans user = VInt r
                  /\ 0 <= r <= MAX_FREE_SCANS
                  /\ (0 < r <-> n < MAX_FREE_SCANS)).
Proof.
  split.
  - destruct user as [u|]; [|reflexivity].
    unfold remainingFreeScans, Math_max.
    change (ToNumber (VInt 0)) with (Int 0).
    destruct (ToNumber _) as [y|]; [|reflexivity].
    simpl. apply Z.ltb_ge. lia.
  - intros u n -> Hn Hpos. rewrite (remaining_of_int u n Hn).
    eexists. split; [reflexivity|]. unfold MAX_FREE_SCANS. lia.
Qed.

Lemma remainingFreeScans_range_witness :
  exists r, remainingFreeScans (Some (profile false 0 7)) = VInt r
            /\ 0 <= r <= MAX_FREE_SCANS /\ (0 < r <-> 7 < MAX_FREE_SCANS).
Proof.
  apply (proj2 (remainingFreeScans_range (Some (profile false 0 7)))
           (profile false 0 7) 7); [reflexivity | reflexivity | lia].
Defined.

(** ** Repeated use against a service that stores what it is sent *)

Section Repeated.

Variable supabase : query -> response.
Variable now : string.

(** The callbacks of the latest render are the operations as modelled. *)
Lemma fresh_increment :
  fresh (incrementTrackCaloriesUsage_of supabase now)
  = incrementTrackCaloriesUsage supabase now.
Proof. reflexivity. Qed.

Lemma fresh_useCredit :
  fresh (useCreditForScan_of supabase now) = useCreditForScan supabase now.
Proof. reflexivity. Qed.

Lemma fresh_addCredits (amount : value) :
  fresh (fun captured => addCredits_of supabase now captured amount)
  = addCredits supabase now amount.
Proof. reflexivity. Qed.

(** The service answers an update with the fields it received. *)
Hypothesis echo : forall updates userId,
  supabase (update_request now updates userId)
  = {| data := VObj (<["updated_at" := VStr now]> updates); failure := VNull |}.

(** One stored single-column update, read back from the user. *)
Lemma echo_update {A} (a : A) (s : state) (u : obj) (k : string) (v : value) :
  user s = Some u -> k <> "updated_at" ->
  exists u', after (bind (updateProfile supabase now (prop u "id") {[ k := v ]})
                         (fun _ => ret a)) s
             = {| user := Some u'; loading := loading s; error := error s |}
             /\ prop u' k = v
             /\ (forall k', k' <> k -> k' <> "updated_at" -> prop u' k' = prop u k').
Proof.
  intros Hu Hk. unfold after.
  rewrite (update_then_ok supabase now a (prop u "id") {[ k := v ]} s)
    by now rewrite echo.
  rewrite echo, Hu. eexists. split; [reflexivity|]. cbn [data spread from_option id].
  split.
  - apply prop_lookup. rewrite merge_lookup, lookup_insert_ne by congruence.
    now rewrite lookup_singleton_eq.
  - intros k' Hk' Hat. unfold prop. rewrite merge_lookup.
    rewrite lookup_insert_ne by congruence.
    now rewrite lookup_singleton_ne by congruence.
Qed.


(** X10. The free quota is a hard cap when the component renders between
    calls.  For a user without premium and without credits whose counter
    [n] is at most 10, [k] calls of [incrementTrackCaloriesUsage], each made
    through the callback of the latest render, leave the counter at
    [min (n + k) 10], and leave [is_premium] and [credits] as they were. *)
Theorem free_quota_is_a_hard_cap (k : nat) (s : state) (u : obj) (n : Z) :
  user s = Some u ->
  truthy (prop u "is_premium") = false ->
  gt (prop u "credits") (VInt 0) = false ->
  prop u "track_calories_usage" = VInt n ->
  n <= MAX_FREE_SCANS ->
  exists u',
    user (times k (fresh (incrementTrackCaloriesUsage_of supabase now)) s) = Some u'
    /\ prop u' "track_calories_usage" = VInt (Z.min (n + Z.of_nat k) MAX_FREE_SCANS)
    /\ prop u' "is_premium" = prop u "is_premium"
    /\ prop u' "credits" = prop u "credits".
Proof.
  rewrite fresh_increment.
  revert s u n. induction k as [|k IH]; intros s u n Hu Hp Hc Hn Hcap.
  - exists u. simpl. rewrite Hu, Hn. repeat split. f_equal. lia.
  - cbn [times]. unfold after at 1.
    rewrite (increment_unfold supabase now s u Hu), Hp, Hc, Hn. simpl orb. cbv iota.
    destruct (Z.ltb_spec n MAX_FREE_SCANS) as [Hlt | Hge].
    + replace (lt (VInt n) (VInt MAX_FREE_SCANS)) with true
        by (symmetry; cbn; now apply Z.ltb_lt).
      change (add (VInt n) (VInt 1)) with (VInt (n + 1)). cbv iota.
      destruct (echo_update VUndef s u "track_calories_usage" (VInt (n + 1)) Hu)
        as (u1 & Hs1 & Hn1 & Hrest); [discriminate|].
      unfold after in Hs1. rewrite Hs1.
      destruct (IH {| user := Some u1; loading := loading s; error := error s |}
                  u1 (n + 1) eq_refl)
        as (u' & Hu' & Hn' & Hp' & Hc').
      * rewrite Hrest by discriminate. exact Hp.
      * rewrite Hrest by discriminate. exact Hc.
      * exact Hn1.
      * lia.
      * exists u'. split; [exact Hu'|]. split; [|split].
        -- rewrite Hn'. f_equal. lia.
        -- rewrite Hp'. apply Hrest; discriminate.
        -- rewrite Hc'. apply Hrest; discriminate.
    + replace (lt (VInt n) (VInt MAX_FREE_SCANS)) with false
        by (symmetry; cbn; now apply Z.ltb_ge).
      cbv iota. cbn [fst snd].
      destruct (IH s u n Hu Hp Hc Hn Hcap) as (u' & Hu' & Hn' & Hp' & Hc').
      exists u'. split; [exact Hu'|]. split; [|now split].
      rewrite Hn'. f_equal. lia.
Qed.

Lemma use_times (k : nat) (s : state) (u : obj) (c : Z) :
  user s = Some u ->
  prop u "credits" = VInt c ->
  0 <= c ->
  exists u', user (times k (useCreditForScan supabase now) s) = Some u'
    /\ prop u' "credits" = VInt (Z.max (c - Z.of_nat k) 0).
Proof.
  revert s u c. induction k as [|k IH]; intros s u c Hu Hc Hpos.
  - exists u. simpl. rewrite Hu, Hc. split; [reflexivity|]. f_equal. lia.
  - cbn [times]. unfold after at 1.
    rewrite (useCredit_unfold supabase now s u Hu), Hc.
    destruct (Z.ltb_spec 0 c) as [Hlt | Hge].
    + replace (le (VInt c) (VInt 0)) with false
        by (symmetry; cbn; now apply negb_false_iff, Z.ltb_lt).
      change (sub (VInt c) (VInt 1)) with (VInt (c - 1)). cbv iota.
      destruct (echo_update (VBool true) s u "credits" (VInt (c - 1)) Hu)
        as (u1 & Hs1 & Hc1 & _); [discriminate|].
      unfold after in Hs1. rewrite Hs1.
      destruct (IH {| user := Some u1; loading := loading s; error := error s |}
                  u1 (c - 1) eq_refl Hc1)
        as (u' & Hu' & Hc'); [lia|].
      exists u'. split; [exact Hu'|]. rewrite Hc'. f_equal. lia.
    + replace (le (VInt c) (VInt 0)) with true
        by (symmetry; cbn; now apply negb_true_iff, Z.ltb_ge).
      cbv iota. cbn [fst snd].
      destruct (IH s u c Hu Hc Hpos) as (u' & Hu' & Hc').
      exists u'. split; [exact Hu'|]. rewrite Hc'. f_equal. lia.
Qed.

(** X11. Credits stop at zero when the component renders between calls.
    For a user with [c >= 0] credits, [k] calls of [useCreditForScan], each
    made through the callback of the latest render, leave [max (c - k) 0]
    credits. *)
Theorem credits_stop_at_zero (k : nat) (s : state) (u : obj) (c : Z) :
  user s = Some u ->
  prop u "credits" = VInt c ->
  0 <= c ->
  exists u',
    user (times k (fresh (useCreditForScan_of supabase now)) s) = Some u'
    /\ prop u' "credits" = VInt (Z.max (c - Z.of_nat k) 0).
Proof. rewrite fresh_useCredit. apply use_times. Qed.

(** X12. Credits bought are credits to use, when the component renders
    between calls.  After [addCredits(a)] with [a >= 0] on a user with
    [c >= 0] credits, [a] calls of [useCreditForScan], each made through the
    callback of the latest render, bring the credits back to [c]. *)
Theorem addCredits_then_use (s : state) (u : obj) (c a : Z) :
  user s = Some u ->
  prop u "credits" = VInt c ->
  0 <= c -> 0 <= a ->
  exists u',
    user (times (Z.to_nat a) (fresh (useCreditForScan_of supabase now))
            (after (fresh (fun captured => addCredits_of supabase now captured (VInt a)))
                   s)) = Some u'
    /\ prop u' "credits" = VInt c.
Proof.
  rewrite fresh_useCredit, fresh_addCredits.
  intros Hu Hc Hpos Ha. unfold after at 1.
  rewrite (addCredits_unfold supabase now (VInt a) s u Hu), Hc, or_int.
  change (add (VInt c) (VInt a)) with (VInt (c + a)).
  destruct (echo_update VUndef s u "credits" (VInt (c + a)) Hu)
    as (u1 & Hs1 & Hc1 & _); [discriminate|].
  unfold after in Hs1. rewrite Hs1.
  destruct (use_times (Z.to_nat a)
              {| user := Some u1; loading := loading s; error := error s |}
              u1 (c + a) eq_refl Hc1)
    as (u' & Hu' & Hc'); [lia|].
  exists u'. split; [exact Hu'|]. rewrite Hc'. f_equal. lia.
Qed.



End Repeated.

Lemma accepting_echoes (row : obj) (meals : list value) (now : string)
    (updates : obj) (userId : value) :
  accepting row meals (update_request now updates userId)
  = {| data := VObj (<["updated_at" := VStr now]> updates); failure := VNull |}.
Proof. reflexivity. Qed.

Lemma free_quota_is_a_hard_cap_witness :
  exists u',
    user (times 5 (fresh (incrementTrackCaloriesUsage_of (accepting ∅ []) clock))
            (session (profile false 0 7))) = Some u'
    /\ prop u' "track_calories_usage" = VInt 10.
Proof.
  destruct (free_quota_is_a_hard_cap (accepting ∅ []) clock (accepting_echoes ∅ [] clock)
              5 (session (profile false 0 7)) (profile false 0 7) 7
              eq_refl eq_refl eq_refl eq_refl) as (u' & Hu' & Hn & _).
  { unfold MAX_FREE_SCANS. lia. }
  exists u'. split; [exact Hu' | exact Hn].
Defined.

Lemma credits_stop_at_zero_witness :
  exists u',
    user (times 3 (fresh (useCreditForScan_of (accepting ∅ []) clock))
            (session (profile false 2 0))) = Some u'
    /\ prop u' "credits" = VInt 0.
Proof.
  destruct (credits_stop_at_zero (accepting ∅ []) clock (accepting_echoes ∅ [] clock)
              3 (session (profile false 2 0)) (profile false 2 0) 2
              eq_refl eq_refl) as (u' & Hu' & Hc); [lia|].
  exists u'. split; [exact Hu' | exact Hc].
Defined.

Lemma addCredits_then_use_witness :
  exists u',
    user (times (Z.to_nat 2) (fresh (useCreditForScan_of (accepting ∅ []) clock))
            (after (fresh (fun captured =>
                             addCredits_of (accepting ∅ []) clock captured (VInt 2)))
                   (session (profile false 1 0)))) = Some u'
    /\ prop u' "credits" = VInt 1.
Proof.
  apply (addCredits_then_use (accepting ∅ []) clock (accepting_echoes ∅ [] clock)
           (session (profile false 1 0)) (profile false 1 0) 1 2);
    [reflexivity | reflexivity | lia | lia].
Defined.



(** ** The meal log, continued *)

Section MealLogOrder.

Variable supabase : query -> response.
Variable now : string.

(** The inserted record reads nothing of the user but its [id]. *)
Lemma mealToAdd_same_id (u u' : obj) (mealItem : value) :
  prop u' "id" = prop u "id" -> mealToAdd now u' mealItem = mealToAdd now u mealItem.
Proof. intros H. unfold mealToAdd. now rewrite H. Qed.

(** X13. A failed insert returns null, sets [error] to the failure
    message, and leaves the user, the [mealLog] with it, as it was. *)
Theorem addMealToLog_failure_keeps_log (s : state) (u : obj) (mealItem : value) :
  user s = Some u ->
  let r := supabase (InsertMeal (mealToAdd now u mealItem)) in
  truthy (failure r) = true ->
  result (addMealToLog supabase now mealItem) s = Return VNull
  /\ after (addMealToLog supabase now mealItem) s
     = {| user := Some u; loading := loading s; error := get (failure r) "message" |}.
Proof.
  intros Hu r Hr. unfold result, after.
  rewrite (addMealToLog_failed supabase now s u mealItem Hu Hr).
  rewrite Hu. split; reflexivity.
Qed.

(** X14. Newest first.  Two successful calls of [addMealToLog] leave a
    [mealLog] that starts with the entry returned for the second call, then
    the entry returned for the first, then the earlier entries in their
    order; every other field of the user is untouched. *)
Theorem addMealToLog_newest_first (s : state) (u : obj) (first second : value)
    (rest : list value) :
  user s = Some u ->
  iterate (Or (prop u "mealLog") (VArr [])) = Some rest ->
  let r1 := supabase (InsertMeal (mealToAdd now u first)) in
  let r2 := supabase (InsertMeal (mealToAdd now u second)) in
  truthy (failure r1) = false ->
  truthy (failure r2) = false ->
  exists u2,
    user (after (addMealToLog supabase now second)
            (after (addMealToLog supabase now first) s)) = Some u2
    /\ prop u2 "mealLog" = VArr (data r2 :: data r1 :: rest)
    /\ (forall k, k <> "mealLog" -> u2 !! k = u !! k).
Proof.
  intros Hu Hit r1 r2 H1 H2.
  unfold after at 2.
  rewrite (addMealToLog_ok supabase now s u first rest Hu H1 Hit). fold r1.
  cbn [fst snd].
  set (u1 := <["mealLog" := VArr (data r1 :: rest)]> u).
  set (s1 := {| user := Some u1; loading := loading s; error := error s |}).
  assert (Hid : prop u1 "id" = prop u "id").
  { unfold prop, u1. now rewrite lookup_insert_ne by discriminate. }
  assert (Hit1 : iterate (Or (prop u1 "mealLog") (VArr [])) = Some (data r1 :: rest)).
  { unfold prop, u1. rewrite lookup_insert_eq. reflexivity. }
  assert (H2' : truthy (failure (supabase (InsertMeal (mealToAdd now u1 second)))) = false).
  { now rewrite (mealToAdd_same_id u u1 second Hid). }
  unfold after.
  rewrite (addMealToLog_ok supabase now s1 u1 second (data r1 :: rest) eq_refl H2' Hit1).
  rewrite (mealToAdd_same_id u u1 second Hid). fold r2. cbn [fst snd user].
  eexists. split; [reflexivity|]. split.
  - apply prop_lookup, lookup_insert_eq.
  - intros k Hk. unfold u1. now rewrite !lookup_insert_ne by congruence.
Qed.

End MealLogOrder.

Lemma addMealToLog_failure_keeps_log_witness :
  let u := <["mealLog" := VArr [VStr "older"]]> (profile false 0 0) in
  after (addMealToLog (failing "500" "disk full") clock (VObj ∅)) (session u)
  = {| user := Some u; loading := false; error := VStr "disk full" |}.
Proof.
  intros u.
  exact (proj2 (addMealToLog_failure_keeps_log (failing "500" "disk full") clock
                  (session u) u (VObj ∅) eq_refl eq_refl)).
Defined.

Lemma addMealToLog_newest_first_witness :
  let svc := accepting ∅ [] in
  let a := VObj {[ "name" := VStr "Apple" ]} in
  let b := VObj {[ "name" := VStr "Bread" ]} in
  exists u2 ea eb,
    user (after (addMealToLog svc clock b)
            (after (addMealToLog svc clock a) (session (profile false 0 0)))) = Some u2
    /\ prop u2 "mealLog" = VArr [eb; ea]
    /\ get eb "name" = VStr "Bread" /\ get ea "name" = VStr "Apple".
Proof.
  intros svc a b.
  destruct (addMealToLog_newest_first svc clock (session (profile false 0 0))
              (profile false 0 0) a b [] eq_refl eq_refl eq_refl eq_refl)
    as (u2 & Hu2 & Hlog & _).
  exists u2. eexists. eexists. split; [exact Hu2|]. split; [exact Hlog|].
  split; reflexivity.
Defined.

(** ** Fetching, start-up and session changes *)

Section SessionChanges.

Variable supabase : query -> response.
Variable now : string.

(** X15. A fetch replaces the session: what [fetchUserProfile] returns,
    the state it leaves and what it does are the same from any two starting
    states, so nothing of an earlier user, error or loading flag survives
    it. *)
Theorem fetchUserProfile_replaces_session (userId : value) (s1 s2 : state) :
  fetchUserProfile supabase userId s1 = fetchUserProfile supabase userId s2.
Proof. now rewrite !fetchUserProfile_unfold. Qed.

(** X16. After [SIGNED_OUT] the user is null, with [loading] and [error]
    untouched and no request sent; from then on nothing is free, paid or
    premium, and every operation on the user returns at once, without a
    request and without a state write. *)
Theorem signed_out_disables_operations (session : value) (s : state) :
  let s' := {| user := None; loading := loading s; error := error s |} in
  onAuthStateChange supabase (VStr "SIGNED_OUT") session s
    = (Return tt, s', [SetUser None])
  /\ remainingFreeScans (user s') = VInt 0
  /\ canUseForFree (user s') = VBool false
  /\ canUseWithCredits (user s') = VBool false
  /\ canUseAsPremium (user s') = VBool false
  /\ incrementTrackCaloriesUsage supabase now s' = (Return VUndef, s', [])
  /\ useCreditForScan supabase now s' = (Return (VBool false), s', [])
  /\ (forall amount, addCredits supabase now amount s' = (Return VUndef, s', []))
  /\ (forall flag, setPremium supabase now flag s' = (Return VUndef, s', []))
  /\ (forall mealItem, addMealToLog supabase now mealItem s' = (Return VUndef, s', [])).
Proof.
  intros s'. split; [reflexivity|]. repeat (split; [reflexivity|]).
  destruct (no_user_noop supabase now s' eq_refl) as (Hi & Hc & Ha & Hp & Hm).
  repeat split; assumption.
Qed.

(** The two parts of a fetch, run one after the other, are the fetch. *)
Lemma fetch_in_two_parts (userId : value) (s : state) :
  bind (fetchStarted supabase userId) (fun pending => pending) s
  = fetchUserProfile supabase userId s.
Proof.
  unfold fetchStarted, fetchPending, fetchUserProfile, bind, ret, setLoading, setError.
  cbn [fst snd].
  match goal with
  | |- context [finally ?m ?f ?s1] => destruct (finally m f s1) as [[r s2] t2]
  end.
  destruct r; reflexivity.
Qed.

(** X17. Start-up does not wait for the profile.  With nobody signed in
    [initializeUser] only sets [loading] to false.  With somebody signed in
    it returns with [loading] true, [error] cleared and [user] untouched,
    and with the rest of the fetch pending; run from there, the pending
    rest completes exactly what [fetchUserProfile(currentUser.id)] does
    from the start, and ends with [loading] false. *)
Theorem initializeUser_leaves_fetch_pending (currentUser : value) (s : state) :
  (truthy currentUser = false ->
     initializeUser supabase currentUser s
     = (Return None, {| user := user s; loading := false; error := error s |},
        [SetLoading false]))
  /\ (truthy currentUser = true ->
      let started := {| user := user s; loading := true; error := VNull |} in
      let pending := fetchPending supabase (get currentUser "id") in
      result (initializeUser supabase currentUser) s = Return (Some pending)
      /\ after (initializeUser supabase currentUser) s = started
      /\ fetchUserProfile supabase (get currentUser "id") s
         = (result pending started, after pending started,
            trace (initializeUser supabase currentUser) s ++ trace pending started)
      /\ result pending started = Return tt
      /\ loading (after pending started) = false).
Proof.
  split; [intros Ht; unfold initializeUser; now rewrite Ht|].
  intros Ht started pending. unfold result at 1, after at 1, trace at 1.
  unfold initializeUser. rewrite Ht.
  split; [reflexivity|]. split; [reflexivity|].
  assert (Hparts : fetchUserProfile supabase (get currentUser "id") s
                   = (result pending started, after pending started,
                      [SetLoading true; SetError VNull] ++ trace pending started)).
  { rewrite <- fetch_in_two_parts. unfold fetchStarted, bind, ret, setLoading, setError.
    cbn [fst snd user loading error app]. fold pending. fold started.
    unfold result, after, trace. destruct (pending started) as [[r s2] t2].
    reflexivity. }
  split; [exact Hparts|].
  destruct (fetch_summary supabase (get currentUser "id") s) as (Hr & Hl & _).
  unfold result, after in Hr, Hl. rewrite Hparts in Hr, Hl.
  split; [exact Hr | exact Hl].
Qed.

End SessionChanges.

Lemma initializeUser_leaves_fetch_pending_witness :
  let svc := failing "PGRST116" "no rows" in
  let me := VObj {[ "id" := VStr "u1" ]} in
  truthy me = true
  /\ after (initializeUser svc me) initial
     = {| user := None; loading := true; error := VNull |}
  /\ loading (after (fetchPending svc (VStr "u1")) (after (initializeUser svc me) initial))
     = false
  /\ after (initializeUser svc VNull) initial
     = {| user := None; loading := false; error := VNull |}.
Proof.
  intros svc me. split; [reflexivity|].
  destruct (initializeUser_leaves_fetch_pending svc me initial) as [_ Hin].
  destruct (Hin eq_refl) as (_ & Hafter & _ & _ & Hl).
  destruct (initializeUser_leaves_fetch_pending svc VNull initial) as [Hout _].
  rewrite Hafter. split; [reflexivity|]. split; [exact Hl|].
  unfold after. now rewrite (Hout eq_refl).
Defined.

Section Listener.

Variable supabase : query -> response.

Lemma strict_eq_str_false (v : value) (s : string) :
  v <> VStr s -> strict_eq_str v s = false.
Proof.
  destruct v as [| |b|n|t|l|o]; try reflexivity.
  intros H. simpl. apply String.eqb_neq. congruence.
Qed.

(** X18. The session listener acts on two events only.  It always
    returns; an event other than [SIGNED_IN] and [SIGNED_OUT] changes
    nothing and sends nothing; so does [SIGNED_IN] when the session is null
    or undefined or has no truthy [user]. *)
Theorem auth_listener_ignores (event session : value) (s : state) :
  result (onAuthStateChange supabase event session) s = Return tt
  /\ (event <> VStr "SIGNED_IN" -> event <> VStr "SIGNED_OUT" ->
        onAuthStateChange supabase event session s = (Return tt, s, []))
  /\ (truthy (optional session "user") = false ->
        onAuthStateChange supabase (VStr "SIGNED_IN") session s = (Return tt, s, []))
  /\ onAuthStateChange supabase (VStr "SIGNED_IN") VNull s = (Return tt, s, [])
  /\ onAuthStateChange supabase (VStr "SIGNED_IN") VUndef s = (Return tt, s, []).
Proof.
  split; [|split; [|split; [|split]]].
  - unfold onAuthStateChange.
    destruct (strict_eq_str event "SIGNED_IN" && _); [apply fetch_summary|].
    destruct (strict_eq_str event "SIGNED_OUT"); reflexivity.
  - intros Hin Hout. unfold onAuthStateChange.
    now rewrite (strict_eq_str_false _ _ Hin), (strict_eq_str_false _ _ Hout).
  - intros Hno. unfold onAuthStateChange. now rewrite Hno.
  - reflexivity.
  - reflexivity.
Qed.

End Listener.

Lemma auth_listener_ignores_witness :
  let s := session (profile false 1 2) in
  onAuthStateChange (failing "500" "down") (VStr "TOKEN_REFRESHED") VNull s
    = (Return tt, s, [])
  /\ onAuthStateChange (failing "500" "down") (VStr "SIGNED_IN") (VObj ∅) s
     = (Return tt, s, []).
Proof.
  intros s.
  destruct (auth_listener_ignores (failing "500" "down") (VStr "TOKEN_REFRESHED") VNull s)
    as (_ & Hother & _).
  destruct (auth_listener_ignores (failing "500" "down") (VStr "SIGNED_IN") (VObj ∅) s)
    as (_ & _ & Hnouser & _).
  split; [apply Hother; discriminate | apply Hnouser; reflexivity].
Defined.
